(** * Orders-map dashboard: normalisation, filtering and selection

    A shallow embedding of the decision logic of the two dashboard
    scripts, [streamlit_app.py] (module [V1]) and
    [streamlit_map_dashboard/app.py] (module [V2]), together with the
    Python, json, numpy and pandas primitives they call.

    Conventions.
    - A Python [str] is a [string]; character classes (whitespace, decimal
      digits) are the ASCII ones.
    - A Python [float] is an IEEE binary64 number, [spec_float] at
      precision 53 and maximal exponent 1024; arithmetic is the one of
      [SpecFloat], so rounding, overflow, infinities and NaN are as in the
      running program.
    - A Python exception is [None] in an [option] result; [None] of Python
      is an explicit constructor or [None] of a field of option type.
    - A loop that waits on the remote source takes fuel. The remote
      source has a state of its own: a request is answered from the state
      and the cursor sent, with a page and the next state.

    The definitions come first; the properties, one module per topic,
    follow them. *)

From Stdlib Require Import ZArith NArith List String Ascii Bool Lia.
From Stdlib Require Import Sorted Permutation.
From Stdlib Require Import Floats.SpecFloat.
Import ListNotations.

Local Open Scope string_scope.
Local Open Scope Z_scope.

(** ** Python strings *)

Module Str.

(** [str.isspace] on one ASCII character: TAB, LF, VT, FF, CR, the four
    information separators 0x1c-0x1f and the space. *)
Definition is_space (c : ascii) : bool :=
  let n := nat_of_ascii c in
  ((9 <=? n) && (n <=? 13) || (28 <=? n) && (n <=? 32))%nat.

Definition is_digit (c : ascii) : bool :=
  let n := nat_of_ascii c in ((48 <=? n) && (n <=? 57))%nat.

Definition digit_value (c : ascii) : Z := Z.of_nat (nat_of_ascii c) - 48.

Definition lower (c : ascii) : ascii :=
  let n := nat_of_ascii c in
  if ((65 <=? n) && (n <=? 90))%nat then ascii_of_nat (n + 32) else c.

Fixpoint lowercase (s : string) : string :=
  match s with
  | EmptyString => EmptyString
  | String c r => String (lower c) (lowercase r)
  end.

Fixpoint lstrip (s : string) : string :=
  match s with
  | String c r => if is_space c then lstrip r else s
  | EmptyString => EmptyString
  end.

(** [rstrip] keeps a character when it is not a space or when something
    survives to its right. *)
Fixpoint rstrip (s : string) : string :=
  match s with
  | EmptyString => EmptyString
  | String c r =>
      match rstrip r with
      | EmptyString => if is_space c then EmptyString else String c EmptyString
      | r' => String c r'
      end
  end.

(** [s.strip()] *)
Definition strip (s : string) : string := rstrip (lstrip s).

(** [s.replace(c, empty)] for a one-character pattern [c]. *)
Fixpoint remove (c : ascii) (s : string) : string :=
  match s with
  | EmptyString => EmptyString
  | String d r => if Ascii.eqb d c then remove c r else String d (remove c r)
  end.

(** [c in s] for a one-character pattern [c]. *)
Fixpoint contains (c : ascii) (s : string) : bool :=
  match s with
  | EmptyString => false
  | String d r => Ascii.eqb d c || contains c r
  end.

(** [s.split(c)]: every occurrence of [c] separates two parts. *)
Fixpoint split (c : ascii) (s : string) : list string :=
  match s with
  | EmptyString => [EmptyString]
  | String d r =>
      if Ascii.eqb d c then EmptyString :: split c r
      else match split c r with
           | p :: ps => String d p :: ps
           | [] => [String d EmptyString]
           end
  end.

(** [s.split(c, 1)]: only the first occurrence of [c] separates. *)
Fixpoint split1 (c : ascii) (s : string) : list string :=
  match s with
  | EmptyString => [EmptyString]
  | String d r =>
      if Ascii.eqb d c then [EmptyString; r]
      else match split1 c r with
           | p :: ps => String d p :: ps
           | [] => [String d EmptyString]
           end
  end.

(** The longest prefix of decimal digits, and what follows it. *)
Fixpoint span_digits (s : string) : string * string :=
  match s with
  | String c r =>
      if is_digit c then let (ds, rest) := span_digits r in (String c ds, rest)
      else (EmptyString, s)
  | EmptyString => (EmptyString, EmptyString)
  end.

(** The number a string of decimal digits denotes, most significant first. *)
Fixpoint digits_value_from (acc : Z) (s : string) : Z :=
  match s with
  | EmptyString => acc
  | String c r => digits_value_from (10 * acc + digit_value c) r
  end.

Definition digits_value (s : string) : Z := digits_value_from 0 s.

Definition is_empty (s : string) : bool :=
  match s with EmptyString => true | _ => false end.

(** Every character of [s] satisfies [p]. *)
Fixpoint all_chars (p : ascii -> bool) (s : string) : bool :=
  match s with
  | EmptyString => true
  | String c r => p c && all_chars p r
  end.

(** [sep.join(parts)] for a one-character separator. *)
Fixpoint join (sep : ascii) (parts : list string) : string :=
  match parts with
  | [] => EmptyString
  | [p] => p
  | p :: rest => p ++ String sep (join sep rest)
  end.

(** [[c.strip() for c in s.split(",") if c.strip()]] *)
Definition clean_parts (s : string) : list string :=
  filter (fun c => negb (is_empty c)) (map strip (split "," s)).

End Str.

(** ** Python floats *)

Module Float.

Definition prec : Z := 53.
Definition emax : Z := 1024.

Definition float := spec_float.

Definition zero : float := S754_zero false.

Definition add : float -> float -> float := SFadd prec emax.
Definition sub : float -> float -> float := SFsub prec emax.
Definition mul : float -> float -> float := SFmul prec emax.
Definition div : float -> float -> float := SFdiv prec emax.
Definition abs : float -> float := SFabs.
Definition leb : float -> float -> bool := SFleb.
Definition ltb : float -> float -> bool := SFltb.

Definition is_nan (x : float) : bool :=
  match x with S754_nan => true | _ => false end.

Definition is_inf (x : float) : bool :=
  match x with S754_infinity _ => true | _ => false end.


(** A number that is zero or above it, infinity included, with the sign
    bit clear. *)
Definition sign_clear (x : float) : bool :=
  match x with
  | S754_zero false | S754_finite false _ _ | S754_infinity false => true
  | _ => false
  end.

(** The binary64 number nearest (ties to even) to [(-1)^s * m * 10^e]:
    what the decimal-to-binary conversion of [float(str)] returns. An
    integer is rounded as it is; a proper fraction [m / 10^k] goes through
    the quotient, remainder and rounding position of the division. *)
Definition of_decimal (s : bool) (m : Z) (e : Z) : float :=
  match m with
  | Zpos p =>
      match e with
      | Zneg k =>
          let '(q, eq, loc) :=
            SFdiv_core_binary prec emax (Zpos p) 0 (10 ^ Zpos k) 0 in
          binary_round_aux prec emax s q eq loc
      | _ =>
          match Zpos p * 10 ^ e with
          | Zpos n => binary_round prec emax s n 0
          | _ => S754_zero s
          end
      end
  | _ => S754_zero s
  end.

(** The binary64 nearest to an integer, an infinity beyond the range. *)
Definition of_Z (n : Z) : float := binary_normalize prec emax n 0 false.

(** [float(n)] for a Python [int]: the nearest binary64, and
    [OverflowError] when [n] is too large for one. *)
Definition of_int (n : Z) : option float :=
  if is_inf (of_Z n) then None else Some (of_Z n).

(** [num / den] rounded to the nearest integer, ties to the even one, for
    [0 <= num] and [0 < den]. *)
Definition round_half_even (num den : Z) : Z :=
  let q := num / den in
  match 2 * (num mod den) ?= den with
  | Lt => q
  | Gt => q + 1
  | Eq => if Z.even q then q else q + 1
  end.

(** [round(x, ndigits)] of Python for [0 <= ndigits]: the exact value of
    [x] is rounded to [ndigits] decimals, ties to even, and the decimal
    obtained is converted back; infinities and NaN round to themselves. *)
Definition py_round (ndigits : nat) (x : float) : float :=
  match x with
  | S754_finite s m e =>
      let scaled := Zpos m * 10 ^ Z.of_nat ndigits in
      of_decimal s
        (if 0 <=? e then scaled * 2 ^ e else round_half_even scaled (2 ^ (- e)))
        (- Z.of_nat ndigits)
  | _ => x
  end.

(** [numpy.rint]: the nearest integral value, ties to even. *)
Definition rint (x : float) : float :=
  match x with
  | S754_finite s m e =>
      if 0 <=? e then x
      else match round_half_even (Zpos m) (2 ^ (- e)) with
           | Zpos n => binary_round prec emax s n 0
           | _ => S754_zero s
           end
  | _ => x
  end.

(** [numpy.round(x, decimals)] for [0 <= decimals], which pandas'
    [Series.round] applies to a float column: scale, [rint], scale back. *)
Definition np_round (decimals : nat) (x : float) : float :=
  let f := of_Z (10 ^ Z.of_nat decimals) in
  div (rint (mul x f)) f.

(** Underscores of a numeric literal: each one stands between two digits.
    [prev] is the character before [s]. *)
Fixpoint underscores_ok (prev : option ascii) (s : string) : bool :=
  match s with
  | EmptyString =>
      match prev with Some "_"%char => false | _ => true end
  | String c r =>
      (if Ascii.eqb c "_"
       then match prev with Some p => Str.is_digit p | None => false end
       else match prev with
            | Some "_"%char => Str.is_digit c
            | _ => true
            end)
      && underscores_ok (Some c) r
  end.

(** An optional sign: [true] for minus. *)
Definition take_sign (s : string) : bool * string :=
  match s with
  | String "-" r => (true, r)
  | String "+" r => (false, r)
  | _ => (false, s)
  end.

(** The exponent part [e[+-]digits] at the head of [s]; without a digit
    after the marker nothing is consumed. *)
Definition take_exponent (s : string) : Z * string :=
  match s with
  | String c r =>
      if Ascii.eqb (Str.lower c) "e" then
        let (neg, r1) := take_sign r in
        let (ds, r2) := Str.span_digits r1 in
        if Str.is_empty ds then (0, s)
        else ((if neg then - Str.digits_value ds else Str.digits_value ds), r2)
      else (0, s)
  | EmptyString => (0, s)
  end.

(** An unsigned decimal literal: digits, an optional point with digits, an
    optional exponent, at least one digit before the exponent, and nothing
    after. The result is the mantissa and the decimal exponent. *)
Definition parse_decimal (s : string) : option (Z * Z) :=
  let (ip, r1) := Str.span_digits s in
  let (fp, r2) :=
    match r1 with
    | String "." r => Str.span_digits r
    | _ => (EmptyString, r1)
    end in
  if Str.is_empty ip && Str.is_empty fp then None
  else
    let (ex, r3) := take_exponent r2 in
    if Str.is_empty r3
    then Some (Str.digits_value (ip ++ fp), ex - Z.of_nat (String.length fp))
    else None.

(** [float(s)] for a string: surrounding whitespace is dropped,
    underscores between digits are dropped, and the rest is a signed
    decimal literal, [inf], [infinity] or [nan] in any letter case.
    [None] is [ValueError]. *)
Definition of_string (s : string) : option float :=
  let t := Str.strip s in
  if underscores_ok None t then
    let (neg, body) := take_sign (Str.remove "_" t) in
    match parse_decimal body with
    | Some (m, e) => Some (of_decimal neg m e)
    | None =>
        let l := Str.lowercase body in
        if String.eqb l "inf" || String.eqb l "infinity"
        then Some (S754_infinity neg)
        else if String.eqb l "nan" then Some S754_nan
        else None
    end
  else None.

End Float.

(** ** Python values and the json decoder *)

#[local] Set Warnings "-register-all".

(** The values [json.loads] returns: [None], [bool], [int], [float], [str],
    [list] and [dict]. A [dict] is its items in insertion order, one per
    key. *)
Inductive pyobj : Type :=
| PNone
| PBool (b : bool)
| PInt (n : Z)
| PFloat (x : Float.float)
| PStr (s : string)
| PList (l : list pyobj)
| PDict (kv : list (string * pyobj)).

Module Dict.

Section Items.
Context {V : Type}.

(** [d.get(k)] *)
Fixpoint get (k : string) (d : list (string * V)) : option V :=
  match d with
  | [] => None
  | (k', v) :: r => if String.eqb k' k then Some v else get k r
  end.

(** [k in d] *)
Definition mem (k : string) (d : list (string * V)) : bool :=
  match get k d with Some _ => true | None => false end.

(** [d[k] = v]: a key already there keeps its place. *)
Fixpoint set (k : string) (v : V) (d : list (string * V)) : list (string * V) :=
  match d with
  | [] => [(k, v)]
  | (k', v') :: r =>
      if String.eqb k' k then (k, v) :: r else (k', v') :: set k v r
  end.

(** [{key(x): x for x in l}] *)
Definition of_list (key : V -> string) (l : list V) : list (string * V) :=
  fold_left (fun d x => set (key x) x d) l [].
End Items.

End Dict.

Module Json.

Definition quote : ascii := "034".
Definition backslash : ascii := "092".

(** Whitespace between tokens: space, TAB, LF, CR. *)
Definition is_ws (c : ascii) : bool :=
  match c with
  | " "%char | "009"%char | "010"%char | "013"%char => true
  | _ => false
  end.

Fixpoint skip_ws (s : string) : string :=
  match s with
  | String c r => if is_ws c then skip_ws r else s
  | EmptyString => EmptyString
  end.

(** [s] without the prefix [p], when it starts with it. *)
Fixpoint after_prefix (p s : string) : option string :=
  match p, s with
  | EmptyString, _ => Some s
  | String a p', String b s' => if Ascii.eqb a b then after_prefix p' s' else None
  | String _ _, EmptyString => None
  end.

Definition hex_value (c : ascii) : option Z :=
  let n := Z.of_nat (nat_of_ascii c) in
  if (48 <=? n) && (n <=? 57) then Some (n - 48)
  else if (65 <=? n) && (n <=? 70) then Some (n - 55)
  else if (97 <=? n) && (n <=? 102) then Some (n - 87)
  else None.

Definition hex4 (a b c d : ascii) : option Z :=
  match hex_value a, hex_value b, hex_value c, hex_value d with
  | Some x, Some y, Some z, Some w => Some (((x * 16 + y) * 16 + z) * 16 + w)
  | _, _, _, _ => None
  end.

Definition byte (n : Z) : ascii := ascii_of_nat (Z.to_nat n).

(** The UTF-8 bytes of a code point. *)
Definition utf8 (n : Z) : string :=
  if n <? 128 then String (byte n) EmptyString
  else if n <? 2048 then
    String (byte (192 + n / 64)) (String (byte (128 + n mod 64)) EmptyString)
  else if n <? 65536 then
    String (byte (224 + n / 4096))
      (String (byte (128 + (n / 64) mod 64))
         (String (byte (128 + n mod 64)) EmptyString))
  else
    String (byte (240 + n / 262144))
      (String (byte (128 + (n / 4096) mod 64))
         (String (byte (128 + (n / 64) mod 64))
            (String (byte (128 + n mod 64)) EmptyString))).

Definition simple_escape (c : ascii) : option ascii :=
  match c with
  | "034"%char => Some "034"%char
  | "092"%char => Some "092"%char
  | "/"%char => Some "/"%char
  | "b"%char => Some "008"%char
  | "f"%char => Some "012"%char
  | "n"%char => Some "010"%char
  | "r"%char => Some "013"%char
  | "t"%char => Some "009"%char
  | _ => None
  end.

(** The body of a string literal after its opening quote, up to the
    closing one: the decoded text and what follows. A [\u] escape in the
    high surrogate range followed by one in the low range is one code
    point. Control characters, unknown escapes and a missing closing quote
    are errors. *)
Fixpoint scan_string (s : string) : option (string * string) :=
  match s with
  | EmptyString => None
  | String c r =>
      if Ascii.eqb c quote then Some (EmptyString, r)
      else if Ascii.eqb c backslash then
        match r with
        | EmptyString => None
        | String e r1 =>
            if Ascii.eqb e "u" then
              match r1 with
              | String h1 (String h2 (String h3 (String h4 r5))) =>
                  match hex4 h1 h2 h3 h4 with
                  | Some n =>
                      let single :=
                        match scan_string r5 with
                        | Some (t, rest) => Some (utf8 n ++ t, rest)
                        | None => None
                        end in
                      if (55296 <=? n) && (n <=? 56319) then
                        match r5 with
                        | String b1 (String b2 (String a (String b
                            (String c' (String d r11))))) =>
                            match
                              (if Ascii.eqb b1 backslash && Ascii.eqb b2 "u"
                               then hex4 a b c' d else None)
                            with
                            | Some m =>
                                if (56320 <=? m) && (m <=? 57343) then
                                  match scan_string r11 with
                                  | Some (t, rest) =>
                                      Some (utf8 (65536 + (n - 55296) * 1024
                                                  + (m - 56320)) ++ t, rest)
                                  | None => None
                                  end
                                else single
                            | None => single
                            end
                        | _ => single
                        end
                      else single
                  | None => None
                  end
              | _ => None
              end
            else
              match simple_escape e with
              | Some d =>
                  match scan_string r1 with
                  | Some (t, rest) => Some (String d t, rest)
                  | None => None
                  end
              | None => None
              end
        end
      else if (nat_of_ascii c <? 32)%nat then None
      else
        match scan_string r with
        | Some (t, rest) => Some (String c t, rest)
        | None => None
        end
  end.

(** A number at the head of [s]: an optional minus, an integer part that
    is a lone 0 or digits not starting with 0, an optional fraction (a
    point and digits), an optional exponent (e or E, an optional sign and
    digits); the longest match. With a fraction or an exponent it is
    [float] of the matched text, otherwise [int] of it. *)
Definition scan_number (s : string) : option (pyobj * string) :=
  let (neg, r0) :=
    match after_prefix "-" s with
    | Some r => (true, r)
    | None => (false, s)
    end in
  let int_part :=
    match after_prefix "0" r0 with
    | Some r => Some ("0", r)
    | None =>
        let (ds, r) := Str.span_digits r0 in
        if Str.is_empty ds then None else Some (ds, r)
    end in
  match int_part with
  | None => None
  | Some (ip, r1) =>
      let (frac, r2) :=
        match after_prefix "." r1 with
        | Some r =>
            let (fd, r') := Str.span_digits r in
            if Str.is_empty fd then (EmptyString, r1) else (String "." fd, r')
        | None => (EmptyString, r1)
        end in
      let (ex, r3) :=
        match r2 with
        | String c r =>
            if Ascii.eqb (Str.lower c) "e" then
              let (sg, ra) :=
                match after_prefix "-" r with
                | Some r' => ("-", r')
                | None =>
                    match after_prefix "+" r with
                    | Some r' => ("+", r')
                    | None => (EmptyString, r)
                    end
                end in
              let (ed, rb) := Str.span_digits ra in
              if Str.is_empty ed then (EmptyString, r2)
              else (String c (sg ++ ed), rb)
            else (EmptyString, r2)
        | EmptyString => (EmptyString, r2)
        end in
      let integer := if neg then String "-" ip else ip in
      if Str.is_empty frac && Str.is_empty ex
      then Some (PInt (if neg then - Str.digits_value ip else Str.digits_value ip), r3)
      else match Float.of_string (integer ++ frac ++ ex) with
           | Some x => Some (PFloat x, r3)
           | None => None
           end
  end.

(** The constants [null], [true], [false], a number, and the constants
    [NaN], [Infinity] and [-Infinity] the decoder of Python accepts, tried
    in this order. *)
Definition scan_atom (s : string) : option (pyobj * string) :=
  match after_prefix "null" s with
  | Some rest => Some (PNone, rest)
  | None =>
  match after_prefix "true" s with
  | Some rest => Some (PBool true, rest)
  | None =>
  match after_prefix "false" s with
  | Some rest => Some (PBool false, rest)
  | None =>
  match scan_number s with
  | Some res => Some res
  | None =>
  match after_prefix "NaN" s with
  | Some rest => Some (PFloat S754_nan, rest)
  | None =>
  match after_prefix "Infinity" s with
  | Some rest => Some (PFloat (S754_infinity false), rest)
  | None =>
  match after_prefix "-Infinity" s with
  | Some rest => Some (PFloat (S754_infinity true), rest)
  | None => None
  end end end end end end end.

(** One value at the head of [s], and what follows it. [members] reads the
    items of an object from the quote of a key on, [elements] the items of
    an array from a value on. [fuel] bounds the nesting of the calls: a
    call passes less text on, except [elements] to [scan_once], so fuel
    above twice the length of [s] is never exhausted. *)
Fixpoint scan_once (fuel : nat) (s : string) {struct fuel}
  : option (pyobj * string) :=
  match fuel with
  | O => None
  | S f =>
      match after_prefix (String quote EmptyString) s with
      | Some r =>
          match scan_string r with
          | Some (t, rest) => Some (PStr t, rest)
          | None => None
          end
      | None =>
      match after_prefix "{" s with
      | Some r =>
          match after_prefix "}" (skip_ws r) with
          | Some rest => Some (PDict [], rest)
          | None => members f [] (skip_ws r)
          end
      | None =>
      match after_prefix "[" s with
      | Some r =>
          match after_prefix "]" (skip_ws r) with
          | Some rest => Some (PList [], rest)
          | None => elements f [] (skip_ws r)
          end
      | None => scan_atom s
      end end end
  end

with members (fuel : nat) (acc : list (string * pyobj)) (s : string)
  {struct fuel} : option (pyobj * string) :=
  match fuel with
  | O => None
  | S f =>
      match after_prefix (String quote EmptyString) s with
      | Some r =>
          match scan_string r with
          | Some (k, r1) =>
              match after_prefix ":" (skip_ws r1) with
              | Some r2 =>
                  match scan_once f (skip_ws r2) with
                  | Some (v, r3) =>
                      match after_prefix "}" (skip_ws r3) with
                      | Some rest => Some (PDict (Dict.set k v acc), rest)
                      | None =>
                          match after_prefix "," (skip_ws r3) with
                          | Some r4 =>
                              members f (Dict.set k v acc) (skip_ws r4)
                          | None => None
                          end
                      end
                  | None => None
                  end
              | None => None
              end
          | None => None
          end
      | None => None
      end
  end

with elements (fuel : nat) (acc : list pyobj) (s : string) {struct fuel}
  : option (pyobj * string) :=
  match fuel with
  | O => None
  | S f =>
      match scan_once f s with
      | Some (v, r1) =>
          match after_prefix "]" (skip_ws r1) with
          | Some rest => Some (PList (acc ++ [v]), rest)
          | None =>
              match after_prefix "," (skip_ws r1) with
              | Some r2 => elements f (acc ++ [v]) (skip_ws r2)
              | None => None
              end
          end
      | None => None
      end
  end.

(** [json.loads(s)]: one value, whitespace around it, nothing else.
    [None] is [JSONDecodeError]. *)
Definition loads (s : string) : option pyobj :=
  match scan_once (S (2 * String.length s)) (skip_ws s) with
  | Some (v, rest) => if Str.is_empty (skip_ws rest) then Some v else None
  | None => None
  end.

End Json.

(** ** pandas selections *)

Module Pd.

Section NSmallest.
Context {A : Type}.
Variable key : A -> Float.float.

(** The first row of [best :: l] whose key no other row undercuts. *)
Fixpoint first_min (best : A) (l : list A) : A :=
  match l with
  | [] => best
  | r :: t =>
      if Float.ltb (key r) (key best) then first_min r t
      else first_min best t
  end.

(** [df.nsmallest(1, key)] as the row it holds, [None] for an empty
    frame: rows whose key is NaN come after all others, and among equal
    keys the first row of the frame comes first. *)
Definition nsmallest1 (l : list A) : option A :=
  match filter (fun r => negb (Float.is_nan (key r))) l with
  | b :: t => Some (first_min b t)
  | [] => hd_error l
  end.
End NSmallest.

End Pd.

(** ** What the remote API returns *)

(** One entry of [column_values]: [text] and [value] are a string or null;
    [value] is a JSON document in a string. The second script does not ask
    for [title]. *)
Record column_value : Type := {
  cv_id : string;
  cv_title : string;
  cv_text : option string;
  cv_value : option string
}.

Record item : Type := {
  it_id : string;
  it_name : string;
  it_created_at : string;
  it_updated_at : string;
  it_column_values : list column_value
}.

(** [items_page]: the items of a page and the cursor of the next one. *)
Record page : Type := {
  pg_items : list item;
  pg_cursor : option string
}.

(** Truth value of a string or [None]. *)
Definition truthy (s : option string) : bool :=
  match s with
  | Some t => negb (Str.is_empty t)
  | None => false
  end.

(** [float(x)] for a decoded value; [None] is [TypeError], [ValueError] or
    [OverflowError]. *)
Definition py_float (x : pyobj) : option Float.float :=
  match x with
  | PFloat f => Some f
  | PInt n => Float.of_int n
  | PBool b => Float.of_int (if b then 1 else 0)
  | PStr s => Float.of_string s
  | PNone | PList _ | PDict _ => None
  end.

(** [int(s)] for a string: surrounding whitespace is dropped, then an
    optional sign and decimal digits, with single underscores between
    digits. [None] is [ValueError]. *)
Definition py_int (s : string) : option Z :=
  let t := Str.strip s in
  if Float.underscores_ok None t then
    let (neg, body) := Float.take_sign (Str.remove "_" t) in
    if negb (Str.is_empty body) && Str.all_chars Str.is_digit body
    then Some (if neg then - Str.digits_value body else Str.digits_value body)
    else None
  else None.

Definition obj_of_float (x : option Float.float) : pyobj :=
  match x with Some f => PFloat f | None => PNone end.

Definition obj_of_text (x : option string) : pyobj :=
  match x with Some s => PStr s | None => PNone end.

Definition is_none {A : Type} (x : option A) : bool :=
  match x with None => true | Some _ => false end.

(** ** First variant: [streamlit_app.py] *)

Module V1.

(** [parse_location], the branch on the structured value: [None] when
    control leaves the [if raw_value:] block without returning. *)
Definition location_of_value (raw_value : option string)
  : option (option Float.float * option Float.float * pyobj) :=
  if truthy raw_value then
    match raw_value with
    | Some doc =>
        match Json.loads doc with
        | Some (PDict j) =>
            if Dict.mem "lat" j && Dict.mem "lng" j then
              match Dict.get "lat" j, Dict.get "lng" j with
              | Some la, Some ln =>
                  match py_float la, py_float ln with
                  | Some x, Some y =>
                      Some (Some x, Some y,
                            match Dict.get "address" j with
                            | Some a => a
                            | None => PStr EmptyString
                            end)
                  | _, _ => None
                  end
              | _, _ => None
              end
            else None
        | _ => None
        end
    | None => None
    end
  else None.

(** [parse_location], the branch on the display text. *)
Definition location_of_text (raw_text : option string)
  : option (option Float.float * option Float.float * pyobj) :=
  match raw_text with
  | Some t =>
      if truthy raw_text && Str.contains "," t then
        match Str.split1 "," t with
        | [lat_s; lng_s] =>
            match Float.of_string (Str.strip lat_s),
                  Float.of_string (Str.strip lng_s) with
            | Some x, Some y => Some (Some x, Some y, PStr EmptyString)
            | _, _ => None
            end
        | _ => None
        end
      else None
  | None => None
  end.

Definition parse_location (raw_value raw_text : option string)
  : option Float.float * option Float.float * pyobj :=
  match location_of_value raw_value with
  | Some r => r
  | None =>
      match location_of_text raw_text with
      | Some r => r
      | None => (None, None, PStr EmptyString)
      end
  end.

(** The order value of the item loop: [$] and [,] removed, whitespace
    stripped, [None] for an empty rest or a rest that is no float. *)
Definition order_value (text : option string) : option Float.float :=
  let val_txt :=
    Str.strip
      (Str.remove "," (Str.remove "$" (if truthy text
                                       then match text with
                                            | Some t => t
                                            | None => EmptyString
                                            end
                                       else EmptyString))) in
  if Str.is_empty val_txt then None else Float.of_string val_txt.

Definition row : Type := list (string * pyobj).

Section Settings.
Variable ORDER_VALUE_COLUMN_TITLE : string.
Variable LOCATION_COLUMN_TITLE : string.
Variable EXTRA_DETAIL_COLUMNS : list string.

(** [vals.get(t, {}).get(key)] for [key] one of [text] and [value]. *)
Definition field (key : column_value -> option string)
    (vals : list (string * column_value)) (t : string) : option string :=
  match Dict.get t vals with
  | Some cv => key cv
  | None => None
  end.

(** The three values the loop computes for an item. *)
Definition normalize (it : item)
  : option Float.float * (option Float.float * option Float.float * pyobj) :=
  let vals := Dict.of_list cv_title (it_column_values it) in
  (order_value (field cv_text vals ORDER_VALUE_COLUMN_TITLE),
   parse_location (field cv_value vals LOCATION_COLUMN_TITLE)
                  (field cv_text vals LOCATION_COLUMN_TITLE)).

(** One turn of the loop: [None] is [continue], [Some] the appended row. *)
Definition row_of_item (it : item) : option row :=
  let vals := Dict.of_list cv_title (it_column_values it) in
  let '(order_val, (lat, lng, addr)) := normalize it in
  if is_none lat || is_none lng || is_none order_val then None
  else
    Some (fold_left
            (fun r t => Dict.set t (obj_of_text (field cv_text vals t)) r)
            EXTRA_DETAIL_COLUMNS
            [("id", PStr (it_id it)); ("name", PStr (it_name it));
             ("updated_at", PStr (it_updated_at it));
             ("order_value", obj_of_float order_val);
             ("lat", obj_of_float lat); ("lng", obj_of_float lng);
             ("address", addr)]).

Definition build_rows (items : list item) : list row :=
  fold_left
    (fun (rows : list row) it =>
       match row_of_item it with
       | Some r => (rows ++ [r])%list
       | None => rows
       end)
    items [].
End Settings.

(** *** Filters and selection *)

(** A float column of the frame at a row; a cell that holds no float is
    NaN. *)
Definition col (k : string) (r : row) : Float.float :=
  match Dict.get k r with
  | Some (PFloat x) => x
  | _ => S754_nan
  end.

(** [(df["order_value"] >= vmin) & (df["order_value"] <= vmax)] at a row,
    for the integers of the slider. *)
Definition in_value_range (vmin vmax : Z) (r : row) : bool :=
  Float.leb (Float.of_Z vmin) (col "order_value" r)
  && Float.leb (col "order_value" r) (Float.of_Z vmax).

(** [p in s] *)
Fixpoint infix (p s : string) : bool :=
  String.prefix p s
  || match s with
     | String _ r => infix p r
     | EmptyString => false
     end.

Section Mask.
Variable EXTRA_DETAIL_COLUMNS : list string.
(** [py_str] is [str] on the cell of a frame. *)
Variable py_str : pyobj -> string.

(** [r.get(t, empty)], with the empty string as default *)
Definition cell (t : string) (r : row) : pyobj :=
  match Dict.get t r with Some v => v | None => PStr EmptyString end.

Definition matches_query (ql : string) (r : row) : bool :=
  infix ql (Str.lowercase (py_str (cell "name" r)))
  || existsb (fun t => infix ql (Str.lowercase (py_str (cell t r))))
             EXTRA_DETAIL_COLUMNS.

(** [filtered = df[mask]] *)
Definition filtered (vmin vmax : Z) (q : string) (df : list row) : list row :=
  filter (fun r =>
            in_value_range vmin vmax r
            && (if Str.is_empty q then true
                else matches_query (Str.lowercase q) r))
         df.
End Mask.

(** The column [dist] at a row, for the rounded click [(latc, lngc)]. *)
Definition dist (latc lngc : Float.float) (r : row) : Float.float :=
  Float.add
    (Float.abs (Float.sub (Float.np_round 5 (col "lat" r)) latc))
    (Float.abs (Float.sub (Float.np_round 5 (col "lng" r)) lngc)).

(** The selection lookup for a click at [(clat, clng)]; [None] is the
    [IndexError] of [[0]] on an empty frame. *)
Definition select_nearest (clat clng : Float.float) (filtered : list row)
  : option row :=
  let latc := Float.py_round 5 clat in
  let lngc := Float.py_round 5 clng in
  Pd.nsmallest1 (dist latc lngc) filtered.

(** The pagination loop. The remote source has a state of its own, of
    type [Src]: [monday s cursor] is the answer to a page request for
    [cursor] made when the source is in state [s], with the state the
    request leaves it in, so that the same cursor may be answered
    differently at different times; [None] is an exception of the request
    ([raise_for_status], an [errors] entry, a missing key). The board
    number [int(BOARD_ID)] of each request was already computed for the
    request of the columns, before the loop, so it cannot fail here. The
    loop state is the items so far and the number of requests made; [fuel]
    bounds the turns. *)
Section Pagination.
Context {Src : Type}.
Variable monday : Src -> option string -> option (page * Src).

Fixpoint fetch_loop (fuel : nat) (s : Src) (cursor : option string)
    (items : list item) (requests : nat) : option (list item * nat) :=
  match fuel with
  | O => None
  | S f =>
      match monday s cursor with
      | None => None
      | Some (pg, s') =>
          let items' := (items ++ pg_items pg)%list in
          if truthy (pg_cursor pg)
          then fetch_loop f s' (pg_cursor pg) items' (S requests)
          else Some (items', S requests)
      end
  end.

Definition fetch_all (fuel : nat) (s : Src) : option (list item * nat) :=
  fetch_loop fuel s None [] 0.
End Pagination.

(** [EXTRA_DETAIL_COLUMNS] from the text of the setting [DETAIL_TITLES]. *)
Definition detail_titles (setting : string) : list string :=
  Str.clean_parts setting.

End V1.

(** ** Second variant: [streamlit_map_dashboard/app.py] *)

Module V2.

(** What [_cv_to_dict] returns. [value] is [None] for a missing or empty
    document, the decoded document, or the document itself when decoding
    raises. *)
Record cv_dict : Type := {
  d_id : string;
  d_text : option string;
  d_value : pyobj
}.

Definition _cv_to_dict (cv : column_value) : cv_dict :=
  {| d_id := cv_id cv;
     d_text := cv_text cv;
     d_value :=
       if truthy (cv_value cv) then
         match cv_value cv with
         | Some doc =>
             match Json.loads doc with
             | Some v => v
             | None => PStr doc
             end
         | None => PNone
         end
       else PNone |}.

(** [d.get(k)] of a decoded object: the value, or [None]. *)
Definition get_or_none (k : string) (d : list (string * pyobj)) : pyobj :=
  match Dict.get k d with Some v => v | None => PNone end.

Definition location_of_text (text_fallback : option string)
  : pyobj * pyobj * pyobj :=
  match text_fallback with
  | Some t =>
      if truthy text_fallback && Str.contains "," t then
        match map (fun x => Float.of_string (Str.strip x))
                  (firstn 2 (Str.split "," t)) with
        | [Some lat; Some lng] => (PFloat lat, PFloat lng, PNone)
        | _ => (PNone, PNone, PNone)
        end
      else (PNone, PNone, PNone)
  | None => (PNone, PNone, PNone)
  end.

Definition parse_location (value_obj : pyobj) (text_fallback : option string)
  : pyobj * pyobj * pyobj :=
  match value_obj with
  | PDict d =>
      if Dict.mem "lat" d && Dict.mem "lng" d
      then (get_or_none "lat" d, get_or_none "lng" d, get_or_none "address" d)
      else location_of_text text_fallback
  | _ => location_of_text text_fallback
  end.

(** The column identifiers the sidebar supplies; an optional one left
    blank is [None]. *)
Record wanted : Type := {
  w_location : string;
  w_value : string;
  w_status : option string;
  w_date : option string;
  w_customer : option string;
  w_city : option string;
  w_state : option string;
  w_country : option string;
  w_extras : list string
}.

(** Two settings of the sidebar are the same or not. *)
Definition wanted_eq_dec (a b : wanted) : {a = b} + {a <> b}.
Proof.
  decide equality;
    try apply (list_eq_dec string_dec);
    try apply string_dec;
    decide equality; apply string_dec.
Defined.

(** A row of [rows]; the extra columns are the keys [extra__<id>]. *)
Record row : Type := {
  item_id : string;
  name : string;
  created_at : string;
  updated_at : string;
  lat : pyobj;
  lng : pyobj;
  address : pyobj;
  order_value : option string;
  status : option string;
  date : option string;
  customer : option string;
  city : option string;
  state : option string;
  country : option string;
  extras : list (string * option string)
}.

Definition get_text (cv_map : list (string * cv_dict)) (cid : string)
  : option string :=
  match Dict.get cid cv_map with
  | Some d => d_text d
  | None => None
  end.

(** [get_text(wanted_ids[k]) if wanted_ids[k] else None] *)
Definition get_optional (cv_map : list (string * cv_dict))
    (cid : option string) : option string :=
  if truthy cid
  then match cid with Some c => get_text cv_map c | None => None end
  else None.

Definition row_of_item (wanted_ids : wanted) (it : item) : row :=
  let cv_map :=
    Dict.of_list d_id (map _cv_to_dict (it_column_values it)) in
  let loc_cv :=
    match Dict.get (w_location wanted_ids) cv_map with
    | Some d => (d_value d, d_text d)
    | None => (PNone, None)
    end in
  let '(la, ln, addr) := parse_location (fst loc_cv) (snd loc_cv) in
  {| item_id := it_id it;
     name := it_name it;
     created_at := it_created_at it;
     updated_at := it_updated_at it;
     lat := la;
     lng := ln;
     address := addr;
     order_value := get_text cv_map (w_value wanted_ids);
     status := get_optional cv_map (w_status wanted_ids);
     date := get_optional cv_map (w_date wanted_ids);
     customer := get_optional cv_map (w_customer wanted_ids);
     city := get_optional cv_map (w_city wanted_ids);
     state := get_optional cv_map (w_state wanted_ids);
     country := get_optional cv_map (w_country wanted_ids);
     extras :=
       fold_left
         (fun (r : list (string * option string)) ec =>
            Dict.set ("extra__" ++ ec) (get_text cv_map ec) r)
         (w_extras wanted_ids) [] |}.

(** A character of the class [[\d\.]]. *)
Definition is_num_char (c : ascii) : bool := Str.is_digit c || Ascii.eqb c ".".

Fixpoint span_num (s : string) : string :=
  match s with
  | String c r => if is_num_char c then String c (span_num r) else EmptyString
  | EmptyString => EmptyString
  end.

(** [str.extract(r'([\d\.]+)')]: the leftmost longest run of digits and
    points; [None] without one. *)
Fixpoint extract_numeric (s : string) : option string :=
  match s with
  | EmptyString => None
  | String c r => if is_num_char c then Some (span_num s) else extract_numeric r
  end.

(** [pd.to_numeric(..., errors="coerce")] on a run of digits and points,
    as a float column: [None] (NaN) when the run writes no decimal, and
    otherwise the decimal converted to binary64. The conversion is
    modelled as the correctly rounded one; the converter of pandas reads
    the first 17 digits and scales by a power of ten, which gives the
    same number on literals of up to 15 digits and may differ in the
    last place, or give NaN out of range, on longer ones. *)
Definition to_numeric (tok : string) : option Float.float :=
  match Float.parse_decimal tok with
  | Some (m, e) => Some (Float.of_decimal false m e)
  | None => None
  end.

(** The column [order_value_num] from the text of [order_value]; [None] is
    NaN. *)
Definition order_value_num (text : option string) : option Float.float :=
  match text with
  | Some t =>
      match extract_numeric (Str.remove "," t) with
      | Some tok => to_numeric tok
      | None => None
      end
  | None => None
  end.

(** A row of the data frame [fetch_items] returns. *)
Record frow : Type := {
  base : row;
  num : option Float.float;
  date_parsed : option Z
}.

Section Fetch.
(** The remote source has a state of its own, of type [Src]:
    [monday s cursor] is the answer to a page request for [cursor] made
    when the source is in state [s], with the state the request leaves it
    in; [None] is an exception of the request. [to_date] is
    [pd.to_datetime(..., errors="coerce")] followed by [.dt.date] on one
    text, the day as a number. *)
Context {Src : Type}.
Variable monday : Src -> option string -> option (page * Src).
Variable to_date : string -> option Z.
Variable wanted_ids : wanted.

(** The [while True] loop. Every turn computes [int(board_id)] for the
    variables of the request before the request is made: a board id that
    is no integer raises [ValueError] on the first turn. *)
Fixpoint fetch_loop (board_id : string) (fuel : nat) (s : Src)
    (cursor : option string) (rows : list row) (requests : nat)
  : option (list row * nat) :=
  match fuel with
  | O => None
  | S f =>
      match py_int board_id with
      | None => None
      | Some _ =>
          match monday s cursor with
          | None => None
          | Some (pg, s') =>
              let rows' :=
                fold_left (fun (acc : list row) it =>
                             (acc ++ [row_of_item wanted_ids it])%list)
                          (pg_items pg) rows in
              if truthy (pg_cursor pg)
              then fetch_loop board_id f s' (pg_cursor pg) rows' (S requests)
              else Some (rows', S requests)
          end
      end
  end.

Definition frame_of_rows (rows : list row) : list frow :=
  let dated := existsb (fun r => negb (is_none (date r))) rows in
  map (fun r =>
         {| base := r;
            num := order_value_num (order_value r);
            date_parsed :=
              if dated
              then match date r with Some t => to_date t | None => None end
              else None |})
      rows.

(** [fetch_items] as the [def] writes it, with the source in state [s]:
    the frame and the number of page requests made. The decorator
    [st.cache_data] that wraps it is [cached_fetch_items] below. *)
Definition fetch_items (fuel : nat) (s : Src) (board_id api_token : string)
  : option (list frow * nat) :=
  if Str.is_empty api_token || Str.is_empty board_id then Some ([], O)
  else
    match fetch_loop board_id fuel s None [] 0 with
    | Some (rows, n) => Some (frame_of_rows rows, n)
    | None => None
    end.

(** An entry of the cache of [st.cache_data]: the arguments of a call, the
    time it was stored at, in seconds, and the frame the call returned. *)
Record cached : Type := {
  c_board_id : string;
  c_api_token : string;
  c_wanted : wanted;
  c_stored : Z;
  c_frame : list frow
}.

(** [ttl=60] *)
Definition ttl : Z := 60.

(** An entry for the same arguments that is younger than [ttl]. *)
Definition fresh (now : Z) (board_id api_token : string) (c : cached) : bool :=
  String.eqb (c_board_id c) board_id
  && String.eqb (c_api_token c) api_token
  && (if wanted_eq_dec (c_wanted c) wanted_ids then true else false)
  && (now <? c_stored c + ttl).

(** The call [fetch_items(BOARD_ID, API_TOKEN, wanted_ids)] of the script,
    at time [now] with the entries [cache], newest first: a fresh entry is
    returned without running the function, so without any request;
    otherwise the function runs and what it returns is stored. An
    exception stores nothing. *)
Definition cached_fetch_items (fuel : nat) (s : Src) (cache : list cached)
    (now : Z) (board_id api_token : string)
  : option (list frow * nat * list cached) :=
  match find (fresh now board_id api_token) cache with
  | Some c => Some (c_frame c, O, cache)
  | None =>
      match fetch_items fuel s board_id api_token with
      | Some (df, n) =>
          Some (df, n,
                {| c_board_id := board_id; c_api_token := api_token;
                   c_wanted := wanted_ids; c_stored := now;
                   c_frame := df |} :: cache)
      | None => None
      end
  end.
End Fetch.

(** *** Filters *)

(** The state of the filter widgets. *)
Record filter_state : Type := {
  val_range : Float.float * Float.float;
  status_sel : list string;
  date_range : option (list Z);
  q : string
}.

Fixpoint insert_sorted (s : string) (l : list string) : list string :=
  match l with
  | [] => [s]
  | x :: r => if String.leb s x then s :: l else x :: insert_sorted s r
  end.

(** [sorted(df["status"].dropna().unique().tolist())] *)
Definition status_options (df : list frow) : list string :=
  fold_right insert_sorted []
    (nodup string_dec
       (flat_map (fun r => match status (base r) with
                           | Some s => [s]
                           | None => []
                           end) df)).

(** [fillna(0)] *)
Definition fillna0 (x : option Float.float) : Float.float :=
  match x with Some v => v | None => Float.zero end.

Definition in_value_range (st : filter_state) (r : frow) : bool :=
  Float.leb (fst (val_range st)) (fillna0 (num r))
  && Float.leb (fillna0 (num r)) (snd (val_range st)).

(** [isin(status_sel)] *)
Definition status_isin (st : filter_state) (r : frow) : bool :=
  match status (base r) with
  | Some s => existsb (String.eqb s) (status_sel st)
  | None => false
  end.

Definition in_date_range (start stop : Z) (r : frow) : bool :=
  match date_parsed r with
  | Some d => (start <=? d) && (d <=? stop)
  | None => false
  end.

(** [astype(str)] of a text column. *)
Definition astype_str (x : option string) : string :=
  match x with Some s => s | None => "None" end.

Section Filters.
(** [str_contains pat s] is [Series.str.contains(pat)] on one string. *)
Variable str_contains : string -> string -> bool.
Variable df : list frow.
Variable st : filter_state.

Definition matches_query (r : frow) : bool :=
  str_contains (q st) (Str.lowercase (astype_str (customer (base r))))
  || str_contains (q st) (Str.lowercase (name (base r)))
  || str_contains (q st) (Str.lowercase (astype_str (city (base r)))).

Definition filter_value (out : list frow) : list frow :=
  filter (in_value_range st) out.

Definition filter_status (out : list frow) : list frow :=
  match status_options df with
  | [] => out
  | _ :: _ =>
      match status_sel st with
      | [] => out
      | _ :: _ => filter (status_isin st) out
      end
  end.

Definition filter_date (out : list frow) : list frow :=
  match date_range st with
  | Some [start; stop] =>
      if existsb (fun r => negb (is_none (date_parsed r))) out
      then filter (in_date_range start stop) out
      else out
  | _ => out
  end.

Definition filter_query (out : list frow) : list frow :=
  if Str.is_empty (q st) then out else filter matches_query out.

Definition apply_filters : list frow :=
  filter_query (filter_date (filter_status (filter_value df))).
End Filters.

(** *** Sidebar and widgets *)

(** [text.strip() or None] *)
Definition strip_or_none (text : string) : option string :=
  if Str.is_empty (Str.strip text) then None else Some (Str.strip text).

(** [wanted_ids] from the texts of the sidebar. *)
Definition make_wanted
    (location_col value_col status_col date_col customer_col
       city_col state_col country_col extra_cols_str : string) : wanted :=
  {| w_location := Str.strip location_col;
     w_value := Str.strip value_col;
     w_status := strip_or_none status_col;
     w_date := strip_or_none date_col;
     w_customer := strip_or_none customer_col;
     w_city := strip_or_none city_col;
     w_state := strip_or_none state_col;
     w_country := strip_or_none country_col;
     w_extras :=
       if Str.is_empty extra_cols_str then []
       else Str.clean_parts extra_cols_str |}.

(** [df["order_value_num"].max()]: the largest value that is not NaN. *)
Definition col_max (df : list frow) : option Float.float :=
  fold_left
    (fun best r =>
       match num r, best with
       | Some v, Some b => if Float.ltb b v then Some v else Some b
       | Some v, None => Some v
       | None, _ => best
       end)
    df None.

(** [max(a, b)] of Python on two floats. *)
Definition py_max (a b : Float.float) : Float.float :=
  if Float.ltb a b then b else a.

(** The value range the slider starts with. *)
Definition default_val_range (df : list frow) : Float.float * Float.float :=
  match col_max df with
  | Some mx => (Float.zero, py_max mx (Float.of_Z 1))
  | None => (Float.zero, Float.of_Z 999999999)
  end.

(** [df["date_parsed"].min()] and [.max()], ignoring missing dates. *)
Definition date_bounds (df : list frow) : option (Z * Z) :=
  fold_left
    (fun acc r =>
       match date_parsed r, acc with
       | Some d, Some (lo, hi) => Some (Z.min lo d, Z.max hi d)
       | Some d, None => Some (d, d)
       | None, _ => acc
       end)
    df None.

(** The date range the date input starts with. *)
Definition default_date_range (df : list frow) : option (list Z) :=
  match date_bounds df with
  | Some (mind, maxd) => Some [mind; maxd]
  | None => None
  end.

(** The state of the widgets before the user touches them. *)
Definition default_state (df : list frow) : filter_state :=
  {| val_range := default_val_range df;
     status_sel := status_options df;
     date_range := default_date_range df;
     q := EmptyString |}.

(** [isna] of pandas on a cell: [None] and NaN are missing. *)
Definition isna (v : pyobj) : bool :=
  match v with
  | PNone => true
  | PFloat x => Float.is_nan x
  | _ => false
  end.

(** [fdf.dropna(subset=["lat","lng"])]: the rows that get a marker. *)
Definition plotted (fdf : list frow) : list frow :=
  filter (fun r => negb (isna (lat (base r))) && negb (isna (lng (base r)))) fdf.

End V2.

(** ** Pages served in a row *)

(** [page_chain monday s c pages]: asked from state [s] for cursor [c],
    then for the cursor of each page it returned, [monday] serves [pages];
    every page but the last carries a cursor and the last carries none.
    Two pages of the sequence may carry the same cursor. *)
Inductive page_chain {Src : Type}
    (monday : Src -> option string -> option (page * Src))
  : Src -> option string -> list page -> Prop :=
| chain_last s c pg s' :
    monday s c = Some (pg, s') -> truthy (pg_cursor pg) = false ->
    page_chain monday s c [pg]
| chain_next s c pg s' rest :
    monday s c = Some (pg, s') -> truthy (pg_cursor pg) = true ->
    page_chain monday s' (pg_cursor pg) rest ->
    page_chain monday s c (pg :: rest).

(** A source without memory: the page depends on the cursor alone. *)
Definition stateless (f : option string -> option page)
  : unit -> option string -> option (page * unit) :=
  fun _ c => match f c with Some pg => Some (pg, tt) | None => None end.

(** A source that serves the pages of a list one after the other, whatever
    cursor it is asked for; its state is what is left to serve. *)
Definition serving (pages : list page) (_ : option string)
  : option (page * list page) :=
  match pages with
  | pg :: rest => Some (pg, rest)
  | [] => None
  end.

(** The items of a sequence of pages, page after page. *)
Definition all_items (pages : list page) : list item :=
  List.concat (map pg_items pages).

(** ** Tables within a table *)

(** [sub_table l m]: [l] is [m] with some rows left out, the others in
    the order of [m]. *)
Inductive sub_table {A : Type} : list A -> list A -> Prop :=
| sub_nil : sub_table [] []
| sub_keep x l m : sub_table l m -> sub_table (x :: l) (x :: m)
| sub_drop x l m : sub_table l m -> sub_table l (x :: m).

(** ** The class, exponent and mantissa of a float *)

Module FloatRank.

Import Float.

(** The class is negative infinity, negative, zero, positive or positive
    infinity. *)
Definition rank (x : float) : Z * Z * Z :=
  match x with
  | S754_infinity true => (-2, 0, 0)
  | S754_finite true m e => (-1, - e, - Zpos m)
  | S754_zero _ => (0, 0, 0)
  | S754_nan => (0, 0, 0)
  | S754_finite false m e => (1, e, Zpos m)
  | S754_infinity false => (2, 0, 0)
  end.

Definition lex_lt (a b : Z * Z * Z) : Prop :=
  let '(a1, a2, a3) := a in
  let '(b1, b2, b3) := b in
  a1 < b1 \/ (a1 = b1 /\ (a2 < b2 \/ (a2 = b2 /\ a3 < b3))).

Definition lex_le (a b : Z * Z * Z) : Prop :=
  let '(a1, a2, a3) := a in
  let '(b1, b2, b3) := b in
  a1 < b1 \/ (a1 = b1 /\ (a2 < b2 \/ (a2 = b2 /\ a3 <= b3))).

End FloatRank.

(** ** The extraction rules as the specification words them *)

Module Spec.

(** The text without the characters [drop] selects. *)
Fixpoint drop_chars (drop : ascii -> bool) (s : string) : string :=
  match s with
  | EmptyString => EmptyString
  | String c r => if drop c then drop_chars drop r else String c (drop_chars drop r)
  end.

(** Monetary value extraction: the display text without currency symbols
    and thousands separators and without surrounding whitespace; absent
    when nothing remains, otherwise its floating-point parse, absent when
    that fails. *)
Definition monetary (text : option string) : option Float.float :=
  match text with
  | None => None
  | Some t =>
      match Str.strip
              (drop_chars (fun c => Ascii.eqb c "$" || Ascii.eqb c ",") t) with
      | EmptyString => None
      | rest => Float.of_string rest
      end
  end.





End Spec.

(** ** Sample records *)

Module Sample.

(** A decimal literal [m * 10^e] as a float. *)
Definition dec (m e : Z) : Float.float :=
  Float.of_decimal (m <? 0) (Z.abs m) e.

Definition quoted (s : string) : string :=
  String Json.quote (s ++ String Json.quote EmptyString).

(** The document [{"lat":40.0,"lng":-73.0}], with the quotes of JSON. *)
Definition doc_numbers : string :=
  "{" ++ quoted "lat" ++ ":40.0," ++ quoted "lng" ++ ":-73.0}".

(** The document [{"lat":"north","lng":"south"}]. *)
Definition doc_words : string :=
  "{" ++ quoted "lat" ++ ":" ++ quoted "north" ++ ","
      ++ quoted "lng" ++ ":" ++ quoted "south" ++ "}".

Definition ORDER_VALUE_COLUMN_TITLE : string := "Order Value".
Definition LOCATION_COLUMN_TITLE : string := "Location".
Definition EXTRA_DETAIL_COLUMNS : list string :=
  ["Customer"; "Status"; "Order Date"].

Definition cv (id title : string) (text value : option string) : column_value :=
  {| cv_id := id; cv_title := title; cv_text := text; cv_value := value |}.

Definition mk_item (id name : string) (cvs : list column_value) : item :=
  {| it_id := id; it_name := name;
     it_created_at := "2024-01-01T00:00:00Z";
     it_updated_at := "2024-01-02T00:00:00Z";
     it_column_values := cvs |}.

(** An order with coordinates in its text and a value. *)
Definition item_ok : item :=
  mk_item "1" "Acme"
    [cv "location" "Location" (Some "34.05, -118.25") None;
     cv "order_value" "Order Value" (Some "$1,234.50") None;
     cv "status" "Status" (Some "Open") None].

(** An order whose value is a dash. *)
Definition item_no_value : item :=
  mk_item "2" "Bolt"
    [cv "location" "Location" (Some "40.0, -73.0") (Some doc_numbers);
     cv "order_value" "Order Value" (Some "—") None].

(** An order without a location. *)
Definition item_no_location : item :=
  mk_item "3" "Coil"
    [cv "order_value" "Order Value" (Some "200") None].

Definition page1 : page :=
  {| pg_items := [item_ok]; pg_cursor := Some "c1" |}.
Definition page3 : page :=
  {| pg_items := [mk_item "4" "Dune" []]; pg_cursor := None |}.


(** Three pages of which the first two carry the same cursor. *)
Definition same_cursor_pages : list page :=
  [{| pg_items := [item_ok]; pg_cursor := Some "next" |};
   {| pg_items := [item_no_value; item_no_location];
      pg_cursor := Some "next" |};
   page3].

Definition wanted_ids : V2.wanted :=
  {| V2.w_location := "location"; V2.w_value := "order_value";
     V2.w_status := Some "status"; V2.w_date := Some "date";
     V2.w_customer := Some "customer"; V2.w_city := Some "city";
     V2.w_state := Some "state"; V2.w_country := Some "country";
     V2.w_extras := [] |}.

(** A frame row of the second variant with a value text and a status. *)
Definition frow_of (id : string) (value status : option string) : V2.frow :=
  {| V2.base :=
       {| V2.item_id := id; V2.name := id;
          V2.created_at := EmptyString; V2.updated_at := EmptyString;
          V2.lat := PNone; V2.lng := PNone; V2.address := PNone;
          V2.order_value := value; V2.status := status; V2.date := None;
          V2.customer := None; V2.city := None; V2.state := None;
          V2.country := None; V2.extras := [] |};
     V2.num := V2.order_value_num value;
     V2.date_parsed := None |}.

(** Rows of values 10, 50 and 200. *)
Definition values_10_50_200 : list V2.frow :=
  [frow_of "a" (Some "10") None; frow_of "b" (Some "50") None;
   frow_of "c" (Some "200") None].

(** The filter state with a value range and nothing else. *)
Definition range_only (lo hi : Z) (sel : list string) : V2.filter_state :=
  {| V2.val_range := (Float.of_Z lo, Float.of_Z hi);
     V2.status_sel := sel; V2.date_range := None; V2.q := EmptyString |}.

(** Rows with a status. *)
Definition with_status : list V2.frow :=
  [frow_of "a" (Some "10") (Some "Open"); frow_of "b" (Some "50") (Some "Done");
   frow_of "c" (Some "200") None].

(** A frame row of the second variant with a parsed date, a day
    number, or none. *)
Definition dated_frow (id : string) (d : option Z) : V2.frow :=
  {| V2.base := V2.base (frow_of id None None);
     V2.num := None;
     V2.date_parsed := d |}.

(** Two rows with a date and one without. *)
Definition dated : list V2.frow :=
  [dated_frow "a" (Some 19700); dated_frow "b" None;
   dated_frow "c" (Some 19725)].

(** A row of the first variant's frame. *)
Definition row_at (id : string) (value la ln : Float.float) : V1.row :=
  [("id", PStr id); ("name", PStr id); ("updated_at", PStr EmptyString);
   ("order_value", PFloat value); ("lat", PFloat la); ("lng", PFloat ln);
   ("address", PStr EmptyString)].

(** The row the first variant builds for [item_ok] under the default
    titles. *)
Definition row_ok : V1.row :=
  [("id", PStr "1"); ("name", PStr "Acme");
   ("updated_at", PStr "2024-01-02T00:00:00Z");
   ("order_value", PFloat (dec 123450 (-2)));
   ("lat", PFloat (dec 3405 (-2))); ("lng", PFloat (dec (-11825) (-2)));
   ("address", PStr EmptyString);
   ("Customer", PNone); ("Status", PStr "Open"); ("Order Date", PNone)].

(** Two markers at [(40.12345, -73.00000)] and one elsewhere. *)
Definition markers : list V1.row :=
  [row_at "far" (dec 10 0) (dec 41 0) (dec (-74) 0);
   row_at "first" (dec 50 0) (dec 4012345 (-5)) (dec (-73) 0);
   row_at "second" (dec 200 0) (dec 4012345 (-5)) (dec (-73) 0)].

(** Two rows on the grid of five decimals, for a click between them. *)
Definition near_click : list V1.row :=
  [row_at "p" (dec 10 0) (dec 4012340 (-5)) (dec (-73) 0);
   row_at "q" (dec 20 0) (dec 4012341 (-5)) (dec (-7299998) (-5))].

(** Two rows off the grid of five decimals. *)
Definition near_rows : list V1.row :=
  [row_at "r1" (dec 10 0) (dec 40123406 (-6)) (dec (-72999994) (-6));
   row_at "r2" (dec 20 0) (dec 4012340 (-5)) (dec (-72999986) (-6))].

End Sample.

(** * Properties *)

Local Open Scope list_scope.

(** A conjunction of closed equations, each settled by evaluation. *)
Ltac by_evaluation :=
  repeat match goal with |- _ /\ _ => split end; vm_compute; reflexivity.

(** ** The floats of the samples *)

Module SampleFacts.

Import Sample.

(** 1234.50 is 2469/2, 40.0 is 40, -73.0 is -73 and 500 is 500, each
    written with a mantissa of 53 bits. *)
Example dec_exact :
  dec 123450 (-2) = S754_finite false (2469 * 2 ^ 41) (-42) /\
  dec 400 (-1) = S754_finite false (5 * 2 ^ 50) (-47) /\
  dec (-730) (-1) = S754_finite true (73 * 2 ^ 46) (-46) /\
  dec 500 0 = S754_finite false (125 * 2 ^ 46) (-44).
Proof. by_evaluation. Qed.

(** 34.05 has no exact binary form: the nearest float is taken. *)
Example dec_nearest :
  dec 3405 (-2) = S754_finite false 4792111478498918 (-47) /\
  Float.of_string "34.05" = Some (dec 3405 (-2)) /\
  Float.of_string " 1_0.5e+1 " = Some (dec 105 0) /\
  Float.of_string "1e999" = Some (S754_infinity false) /\
  Float.of_string "-nan" = Some S754_nan /\
  Float.of_string "1,5" = None.
Proof. by_evaluation. Qed.

End SampleFacts.

(** ** The order of floats

    Away from NaN the comparison of [SpecFloat] is the lexicographic order
    of [FloatRank.rank], so it is a total preorder. *)

Module FloatOrder.

Import Float FloatRank.

Ltac order_cases x y :=
  destruct x as [[|]|[|]| |[|] ?m ?e], y as [[|]|[|]| |[|] ?m ?e];
  try discriminate;
  unfold leb, ltb, SFleb, SFltb, SFcompare, rank, lex_le, lex_lt;
  try (split; [intros _; lia | reflexivity]);
  try (split; [discriminate | intros; exfalso; lia]).

Ltac finite_cases :=
  match goal with
  | |- context [Z.compare ?a ?b] =>
      destruct (Z.compare_spec a b);
      match goal with
      | |- context [Pos.compare_cont Eq ?p ?q] =>
          change (Pos.compare_cont Eq p q) with (Pos.compare p q);
          destruct (Pos.compare_spec p q)
      | _ => idtac
      end
  end;
  cbn [CompOpp];
  try (split; [intros _; lia | reflexivity]);
  try (split; [discriminate | intros; exfalso; lia]).

Lemma leb_rank (x y : float) :
  is_nan x = false -> is_nan y = false ->
  (leb x y = true <-> lex_le (rank x) (rank y)).
Proof.
  intros Hx Hy. order_cases x y; finite_cases.
Qed.

Lemma ltb_rank (x y : float) :
  is_nan x = false -> is_nan y = false ->
  (ltb x y = true <-> lex_lt (rank x) (rank y)).
Proof.
  intros Hx Hy. order_cases x y; finite_cases.
Qed.

Lemma ltb_not_nan (x y : float) :
  ltb x y = true -> is_nan x = false /\ is_nan y = false.
Proof.
  destruct x as [[|]|[|]| |[|] ?m ?e], y as [[|]|[|]| |[|] ?m ?e];
    cbn; intros H; try discriminate; split; reflexivity.
Qed.

Lemma leb_not_nan (x y : float) :
  leb x y = true -> is_nan x = false /\ is_nan y = false.
Proof.
  destruct x as [[|]|[|]| |[|] ?m ?e], y as [[|]|[|]| |[|] ?m ?e];
    cbn; intros H; try discriminate; split; reflexivity.
Qed.

Ltac to_rank :=
  repeat match goal with
         | H : leb ?x ?y = true |- _ =>
             apply leb_rank in H; [| assumption | assumption]
         | H : ltb ?x ?y = true |- _ =>
             apply ltb_rank in H; [| assumption | assumption]
         | H : ltb ?x ?y = false |- _ =>
             let K := fresh in
             assert (K : ~ lex_lt (rank x) (rank y))
               by (intros K; apply ltb_rank in K;
                   [congruence | assumption | assumption]);
             clear H
         end;
  try (apply leb_rank; [assumption | assumption |]);
  try (apply ltb_rank; [assumption | assumption |]);
  repeat match goal with
         | H : context [rank ?x] |- _ =>
             let a := fresh in let b := fresh in let c := fresh in
             destruct (rank x) as [[a b] c]
         | |- context [rank ?x] =>
             let a := fresh in let b := fresh in let c := fresh in
             destruct (rank x) as [[a b] c]
         end;
  unfold lex_le, lex_lt in *; lia.

Lemma leb_refl (x : float) : is_nan x = false -> leb x x = true.
Proof. intros Hx. to_rank. Qed.

Lemma leb_total (x y : float) :
  is_nan x = false -> is_nan y = false -> ltb x y = false -> leb y x = true.
Proof. intros Hx Hy H. to_rank. Qed.

Lemma ltb_leb (x y : float) : ltb x y = true -> leb x y = true.
Proof.
  intros H. destruct (ltb_not_nan _ _ H) as [Hx Hy]. to_rank.
Qed.

Lemma leb_trans (x y z : float) :
  leb x y = true -> leb y z = true -> leb x z = true.
Proof.
  intros H1 H2. destruct (leb_not_nan _ _ H1) as [Hx Hy].
  destruct (leb_not_nan _ _ H2) as [_ Hz]. to_rank.
Qed.



End FloatOrder.

(** ** Selection of the smallest key *)

Module PdFacts.

Import FloatOrder.

Section FirstMin.
Context {A : Type}.
Variable key : A -> Float.float.


Lemma filter_all (f : A -> bool) (l : list A) :
  (forall x, In x l -> f x = true) -> filter f l = l.
Proof.
  induction l as [|a l IH]; intros H; cbn; [reflexivity |].
  rewrite (H a (or_introl eq_refl)), IH; [reflexivity |].
  intros x Hx. apply H. right. exact Hx.
Qed.

End FirstMin.

End PdFacts.

(** ** The json decoder never runs out of fuel *)

Module JsonFacts.

Import Json.

Lemma skip_ws_length (s : string) :
  (String.length (skip_ws s) <= String.length s)%nat.
Proof.
  induction s as [|c s IH]; cbn; [lia |]. destruct (is_ws c); cbn; lia.
Qed.

Lemma after_prefix_length (p s r : string) :
  after_prefix p s = Some r ->
  String.length s = (String.length p + String.length r)%nat.
Proof.
  revert s. induction p as [|a p IH]; intros s H; cbn in H.
  - injection H as ->. reflexivity.
  - destruct s as [|b s]; [discriminate |].
    destruct (Ascii.eqb a b); [| discriminate].
    cbn. rewrite (IH _ H). reflexivity.
Qed.

Lemma span_digits_length (s ds r : string) :
  Str.span_digits s = (ds, r) ->
  String.length s = (String.length ds + String.length r)%nat.
Proof.
  revert ds r. induction s as [|c s IH]; intros ds r H; cbn in H.
  - injection H as <- <-. reflexivity.
  - destruct (Str.is_digit c).
    + destruct (Str.span_digits s) as [ds' r'] eqn:E.
      injection H as <- <-. cbn. rewrite (IH _ _ eq_refl). reflexivity.
    + injection H as <- <-. reflexivity.
Qed.

Ltac split_step :=
  match goal with
  | K : None = Some _ |- _ => discriminate K
  | K : Some _ = Some _ |- _ => injection K as K; subst
  | K : (_, _) = (_, _) |- _ => injection K as K; subst
  | K : context [if ?b then _ else _] |- _ => destruct b eqn:?
  | K : context [match after_prefix ?p ?x with _ => _ end] |- _ =>
      let E := fresh "E" in
      destruct (after_prefix p x) eqn:E;
      [apply after_prefix_length in E |]
  | K : context [match Str.span_digits ?x with _ => _ end] |- _ =>
      let E := fresh "E" in
      destruct (Str.span_digits x) eqn:E;
      apply span_digits_length in E
  | K : context [match scan_string ?x with _ => _ end] |- _ =>
      destruct (scan_string x) as [[? ?]|] eqn:?
  | K : context [match ?x with _ => _ end] |- _ =>
      first [is_var x; destruct x | destruct x eqn:?]
  end.

Lemma scan_string_shrinks (n : nat) :
  forall s t r,
    (String.length s <= n)%nat -> scan_string s = Some (t, r) ->
    (String.length r < String.length s)%nat.
Proof.
  induction n as [|n IH]; intros s t r Hn H.
  - destruct s; [discriminate | cbn in Hn; lia].
  - destruct s as [|c s]; [discriminate |]. cbn [scan_string] in H.
    cbv zeta in H.
    repeat split_step;
      repeat match goal with
             | K : scan_string ?x = Some _ |- _ =>
                 apply IH in K; [| cbn [String.length] in *; lia]
             end;
      cbn [String.length] in *; lia.
Qed.


Lemma scan_number_shrinks (s : string) (v : pyobj) (r : string) :
  scan_number s = Some (v, r) -> (String.length r < String.length s)%nat.
Proof.
  unfold scan_number. intros H.
  repeat split_step;
    repeat match goal with
           | K : Str.is_empty ?d = false |- _ =>
               destruct d; [discriminate K | clear K]
           end;
    cbn [String.length] in *; lia.
Qed.

Lemma scan_atom_shrinks (s : string) (v : pyobj) (r : string) :
  scan_atom s = Some (v, r) -> (String.length r < String.length s)%nat.
Proof.
  unfold scan_atom. intros H.
  destruct (scan_number s) as [[v' r']|] eqn:En.
  - apply scan_number_shrinks in En.
    repeat split_step; cbn [String.length] in *; lia.
  - repeat split_step; cbn [String.length] in *; lia.
Qed.


Ltac note_lengths :=
  repeat match goal with
         | K : scan_string ?x = Some _ |- _ =>
             apply (scan_string_shrinks (String.length x)) in K; [| lia]
         | K : scan_atom _ = Some _ |- _ => apply scan_atom_shrinks in K
         | K : after_prefix _ _ = Some _ |- _ => apply after_prefix_length in K
         | |- context [skip_ws ?x] =>
             lazymatch goal with
             | _ : (String.length (skip_ws x) <= String.length x)%nat |- _ => fail
             | _ => pose proof (skip_ws_length x)
             end
         | _ : context [skip_ws ?x] |- _ =>
             lazymatch goal with
             | _ : (String.length (skip_ws x) <= String.length x)%nat |- _ => fail
             | _ => pose proof (skip_ws_length x)
             end
         end;
  cbn [String.length] in *.

(** What a scan leaves is shorter than what it was given. *)
Lemma scan_shrinks (fuel : nat) :
  (forall s v r,
      scan_once fuel s = Some (v, r) ->
      (String.length r < String.length s)%nat) /\
  (forall acc s v r,
      members fuel acc s = Some (v, r) ->
      (String.length r < String.length s)%nat) /\
  (forall acc s v r,
      elements fuel acc s = Some (v, r) ->
      (String.length r < String.length s)%nat).
Proof.
  induction fuel as [|f (IH1 & IH2 & IH3)]; [repeat split; discriminate |].
  split; [| split].
  - intros s v r H. cbn [scan_once] in H.
    destruct (after_prefix (String quote EmptyString) s) as [r0|] eqn:E0.
    { destruct (scan_string r0) as [[t rest]|] eqn:Es; [| discriminate].
      injection H as <- <-. note_lengths. lia. }
    destruct (after_prefix "{" s) as [r1|] eqn:E1.
    { destruct (after_prefix "}" (skip_ws r1)) as [rest|] eqn:E2.
      - injection H as <- <-. note_lengths. lia.
      - apply IH2 in H. note_lengths. lia. }
    destruct (after_prefix "[" s) as [r2|] eqn:E2.
    { destruct (after_prefix "]" (skip_ws r2)) as [rest|] eqn:E3.
      - injection H as <- <-. note_lengths. lia.
      - apply IH3 in H. note_lengths. lia. }
    note_lengths. exact H.
  - intros acc s v r H. cbn [members] in H.
    destruct (after_prefix (String quote EmptyString) s) as [r0|] eqn:E0;
      [| discriminate].
    destruct (scan_string r0) as [[k r1]|] eqn:Es; [| discriminate].
    destruct (after_prefix ":" (skip_ws r1)) as [r2|] eqn:E2; [| discriminate].
    destruct (scan_once f (skip_ws r2)) as [[v' r3]|] eqn:E3; [| discriminate].
    apply IH1 in E3.
    destruct (after_prefix "}" (skip_ws r3)) as [rest|] eqn:E4.
    + injection H as <- <-. note_lengths. lia.
    + destruct (after_prefix "," (skip_ws r3)) as [r4|] eqn:E5; [| discriminate].
      apply IH2 in H. note_lengths. lia.
  - intros acc s v r H. cbn [elements] in H.
    destruct (scan_once f s) as [[v' r1]|] eqn:E1; [| discriminate].
    apply IH1 in E1.
    destruct (after_prefix "]" (skip_ws r1)) as [rest|] eqn:E2.
    + injection H as <- <-. note_lengths. lia.
    + destruct (after_prefix "," (skip_ws r1)) as [r2|] eqn:E3; [| discriminate].
      apply IH3 in H. note_lengths. lia.
Qed.

(** Fuel above twice the length of the text is as good as any more. *)
Lemma scan_fuel (fuel : nat) :
  (forall s fuel',
      (2 * String.length s < fuel)%nat -> (fuel <= fuel')%nat ->
      scan_once fuel' s = scan_once fuel s) /\
  (forall acc s fuel',
      (2 * String.length s < fuel)%nat -> (fuel <= fuel')%nat ->
      members fuel' acc s = members fuel acc s) /\
  (forall acc s fuel',
      (2 * String.length s + 1 < fuel)%nat -> (fuel <= fuel')%nat ->
      elements fuel' acc s = elements fuel acc s).
Proof.
  induction fuel as [|f (IH1 & IH2 & IH3)]; [repeat split; intros; lia |].
  destruct (scan_shrinks f) as (S1 & _ & _).
  split; [| split].
  - intros s [|f'] Hlen Hle; [lia |]. cbn [scan_once].
    destruct (after_prefix (String quote EmptyString) s); [reflexivity |].
    destruct (after_prefix "{" s) as [r1|] eqn:E1.
    { destruct (after_prefix "}" (skip_ws r1)); [reflexivity |].
      apply IH2; [note_lengths; lia | lia]. }
    destruct (after_prefix "[" s) as [r2|] eqn:E2; [| reflexivity].
    destruct (after_prefix "]" (skip_ws r2)); [reflexivity |].
    apply IH3; [note_lengths; lia | lia].
  - intros acc s [|f'] Hlen Hle; [lia |]. cbn [members].
    destruct (after_prefix (String quote EmptyString) s) as [r0|] eqn:E0;
      [| reflexivity].
    destruct (scan_string r0) as [[k r1]|] eqn:Es; [| reflexivity].
    destruct (after_prefix ":" (skip_ws r1)) as [r2|] eqn:E2; [| reflexivity].
    rewrite (IH1 (skip_ws r2) f') by (note_lengths; lia).
    destruct (scan_once f (skip_ws r2)) as [[v r3]|] eqn:E3; [| reflexivity].
    apply S1 in E3.
    destruct (after_prefix "}" (skip_ws r3)); [reflexivity |].
    destruct (after_prefix "," (skip_ws r3)) as [r4|] eqn:E5; [| reflexivity].
    apply IH2; [note_lengths; lia | lia].
  - intros acc s [|f'] Hlen Hle; [lia |]. cbn [elements].
    rewrite (IH1 s f') by lia.
    destruct (scan_once f s) as [[v r1]|] eqn:E1; [| reflexivity].
    apply S1 in E1.
    destruct (after_prefix "]" (skip_ws r1)); [reflexivity |].
    destruct (after_prefix "," (skip_ws r1)) as [r2|] eqn:E3; [| reflexivity].
    apply IH3; [note_lengths; lia | lia].
Qed.

(** The fuel [loads] gives is enough: no more fuel changes what it
    decodes. *)
Lemma loads_fuel_enough (s : string) (fuel : nat) :
  (2 * String.length s < fuel)%nat ->
  scan_once fuel (skip_ws s) = scan_once (S (2 * String.length s)) (skip_ws s).
Proof.
  intros H. pose proof (skip_ws_length s).
  apply (proj1 (scan_fuel (S (2 * String.length s)))); lia.
Qed.

End JsonFacts.

(** ** Splitting at commas *)

Module StrFacts.

Local Open Scope string_scope.

Lemma contains_sep (c : ascii) (a b : string) :
  Str.contains c (a ++ String c b) = true.
Proof.
  induction a as [|d a IH]; cbn.
  - rewrite Ascii.eqb_refl. reflexivity.
  - rewrite IH. apply orb_true_r.
Qed.

Lemma not_empty_sep (c : ascii) (a b : string) :
  Str.is_empty (a ++ String c b) = false.
Proof. destruct a; reflexivity. Qed.

(** [split(c, 1)] cuts at the first occurrence. *)
Lemma split1_first (c : ascii) (a b : string) :
  Str.contains c a = false ->
  Str.split1 c (a ++ String c b) = [a; b].
Proof.
  induction a as [|d a IH]; cbn; intros H.
  - rewrite Ascii.eqb_refl. reflexivity.
  - apply orb_false_iff in H as [Hd Ha]. rewrite Hd, (IH Ha). reflexivity.
Qed.

Lemma split_none (c : ascii) (a : string) :
  Str.contains c a = false -> Str.split c a = [a].
Proof.
  induction a as [|d a IH]; cbn; intros H; [reflexivity |].
  apply orb_false_iff in H as [Hd Ha]. rewrite Hd, (IH Ha). reflexivity.
Qed.

(** [split(c)] cuts at every occurrence. *)
Lemma split_first (c : ascii) (a b : string) :
  Str.contains c a = false ->
  Str.split c (a ++ String c b) = a :: Str.split c b.
Proof.
  induction a as [|d a IH]; cbn; intros H.
  - rewrite Ascii.eqb_refl. reflexivity.
  - apply orb_false_iff in H as [Hd Ha]. rewrite Hd, (IH Ha). reflexivity.
Qed.

(** The first two parts of a text with a comma: the part before the first
    comma and the part between it and the next one, if any. *)
Lemma split_first_two (c : ascii) (a b tail : string) :
  Str.contains c a = false -> Str.contains c b = false ->
  tail = EmptyString \/ (exists more, tail = String c more) ->
  firstn 2 (Str.split c (a ++ String c (b ++ tail))) = [a; b].
Proof.
  intros Ha Hb Htail. rewrite (split_first c a _ Ha).
  destruct Htail as [-> | [more ->]].
  - replace (b ++ EmptyString) with b.
    + rewrite (split_none c b Hb). reflexivity.
    + clear. induction b as [|d b IH]; cbn; [reflexivity | f_equal; exact IH].
  - rewrite (split_first c b more Hb). reflexivity.
Qed.

End StrFacts.

(** ** Coordinate extraction *)

Module Location.

Import Sample.

Lemma truthy_sep (a b : string) :
  truthy (Some (a ++ "," ++ b)%string) = true.
Proof. cbn. rewrite StrFacts.not_empty_sep. reflexivity. Qed.

(** The text branch of the first variant on a text cut at its first
    comma. *)
Lemma v1_location_of_text (a b : string) :
  Str.contains "," a = false ->
  V1.location_of_text (Some (a ++ "," ++ b)%string)
  = match Float.of_string (Str.strip a), Float.of_string (Str.strip b) with
    | Some x, Some y => Some (Some x, Some y, PStr EmptyString)
    | _, _ => None
    end.
Proof.
  intros Ha. unfold V1.location_of_text.
  rewrite truthy_sep. cbn [String.append].
  rewrite StrFacts.contains_sep, (StrFacts.split1_first _ _ _ Ha).
  reflexivity.
Qed.

(** The text branch of the second variant on a text cut at its first two
    commas. *)
Lemma v2_location_of_text (a b tail : string) :
  Str.contains "," a = false -> Str.contains "," b = false ->
  tail = EmptyString \/ (exists more, tail = String "," more) ->
  V2.location_of_text (Some (a ++ "," ++ b ++ tail)%string)
  = match Float.of_string (Str.strip a), Float.of_string (Str.strip b) with
    | Some x, Some y => (PFloat x, PFloat y, PNone)
    | _, _ => (PNone, PNone, PNone)
    end.
Proof.
  intros Ha Hb Htail. unfold V2.location_of_text.
  rewrite truthy_sep. cbn [String.append].
  rewrite StrFacts.contains_sep, (StrFacts.split_first_two _ _ _ _ Ha Hb Htail).
  cbn [map andb].
  destruct (Float.of_string (Str.strip a)), (Float.of_string (Str.strip b));
    reflexivity.
Qed.

(** A document that decodes is not empty. *)
Lemma loads_truthy (doc : string) (v : pyobj) :
  Json.loads doc = Some v -> truthy (Some doc) = true.
Proof. destruct doc; [discriminate | reflexivity]. Qed.

(** The structured branch of the first variant on a mapping with both
    keys. *)
Lemma v1_location_of_value (doc : string) (j : list (string * pyobj))
    (la ln : pyobj) :
  Json.loads doc = Some (PDict j) ->
  Dict.get "lat" j = Some la -> Dict.get "lng" j = Some ln ->
  V1.location_of_value (Some doc)
  = match py_float la, py_float ln with
    | Some x, Some y =>
        Some (Some x, Some y,
              match Dict.get "address" j with
              | Some a => a
              | None => PStr EmptyString
              end)
    | _, _ => None
    end.
Proof.
  intros Hj Hla Hln. unfold V1.location_of_value, Dict.mem.
  rewrite (loads_truthy doc _ Hj), Hj, Hla, Hln. reflexivity.
Qed.

(** A mapping whose coordinates are words, next to a text with numbers:
    the first variant returns the numbers of the text, and without the
    text it returns no coordinates. *)
Lemma structured_value_not_always_used :
  Json.loads doc_words
  = Some (PDict [("lat", PStr "north"); ("lng", PStr "south")]) /\
  V1.parse_location (Some doc_words) (Some "1.0,2.0")
  = (Some (dec 10 (-1)), Some (dec 20 (-1)), PStr EmptyString) /\
  V1.parse_location (Some doc_words) None = (None, None, PStr EmptyString) /\
  V1.parse_location (Some doc_words) (Some "1.0,2.0")
  <> V1.parse_location (Some doc_words) None.
Proof.
  split; [| split; [| split]]; try (vm_compute; reflexivity).
  vm_compute. discriminate.
Qed.

(** C1, amended. For a structured location value that is a mapping with
    both a latitude and a longitude key, the display text is not consulted
    and: the second variant returns the two values as they are, with the
    address or None; the first variant returns them converted to floating
    point, with the address or the empty string, provided both convert.
    The example of the specification holds in both variants. *)
Theorem structured_location_wins :
  (forall doc j la ln x y text,
      Json.loads doc = Some (PDict j) ->
      Dict.get "lat" j = Some la -> Dict.get "lng" j = Some ln ->
      py_float la = Some x -> py_float ln = Some y ->
      V1.parse_location (Some doc) text
      = (Some x, Some y,
         match Dict.get "address" j with
         | Some a => a
         | None => PStr EmptyString
         end)) /\
  (forall d la ln text,
      Dict.get "lat" d = Some la -> Dict.get "lng" d = Some ln ->
      V2.parse_location (PDict d) text
      = (la, ln,
         match Dict.get "address" d with Some a => a | None => PNone end)) /\
  V1.parse_location (Some doc_numbers) (Some "1.0,2.0")
  = (Some (dec 400 (-1)), Some (dec (-730) (-1)), PStr EmptyString) /\
  V2.parse_location
    (V2.d_value (V2._cv_to_dict
                   (cv "location" "Location" (Some "1.0,2.0") (Some doc_numbers))))
    (Some "1.0,2.0")
  = (PFloat (dec 400 (-1)), PFloat (dec (-730) (-1)), PNone).
Proof.
  split; [| split; [| split]].
  - intros doc j la ln x y text Hj Hla Hln Hx Hy.
    unfold V1.parse_location.
    rewrite (v1_location_of_value doc j la ln Hj Hla Hln), Hx, Hy.
    reflexivity.
  - intros d la ln text Hla Hln.
    unfold V2.parse_location, Dict.mem, V2.get_or_none.
    rewrite Hla, Hln. reflexivity.
  - vm_compute. reflexivity.
  - vm_compute. reflexivity.
Qed.

Lemma structured_location_wins_witness :
  V1.parse_location (Some doc_numbers) (Some "9,9")
  = (Some (dec 400 (-1)), Some (dec (-730) (-1)), PStr EmptyString).
Proof.
  apply (proj1 structured_location_wins doc_numbers
           [("lat", PFloat (dec 400 (-1))); ("lng", PFloat (dec (-730) (-1)))]
           (PFloat (dec 400 (-1))) (PFloat (dec (-730) (-1))));
    vm_compute; reflexivity.
Defined.

(** C10. In the first variant, when the structured value is a mapping
    with both keys and one of the two values does not convert to floating
    point, extraction returns what it returns without a structured value:
    the display text decides, and a text of two numbers around its first
    comma yields them. *)
Theorem malformed_structured_falls_through
    (doc : string) (j : list (string * pyobj)) (la ln : pyobj)
    (text : option string) :
  Json.loads doc = Some (PDict j) ->
  Dict.get "lat" j = Some la -> Dict.get "lng" j = Some ln ->
  py_float la = None \/ py_float ln = None ->
  V1.parse_location (Some doc) text = V1.parse_location None text /\
  (forall a b x y,
      text = Some (a ++ "," ++ b)%string -> Str.contains "," a = false ->
      Float.of_string (Str.strip a) = Some x ->
      Float.of_string (Str.strip b) = Some y ->
      V1.parse_location (Some doc) text = (Some x, Some y, PStr EmptyString)).
Proof.
  intros Hj Hla Hln Hbad.
  assert (Hv : V1.location_of_value (Some doc) = None).
  { rewrite (v1_location_of_value doc j la ln Hj Hla Hln).
    destruct Hbad as [-> | ->]; [reflexivity |].
    destruct (py_float la); reflexivity. }
  split.
  - unfold V1.parse_location. rewrite Hv. reflexivity.
  - intros a b x y -> Ha Hx Hy. unfold V1.parse_location.
    rewrite Hv, (v1_location_of_text a b Ha), Hx, Hy. reflexivity.
Qed.

Lemma malformed_structured_falls_through_witness :
  V1.parse_location (Some doc_words) (Some "1.0,2.0")
  = (Some (dec 10 (-1)), Some (dec 20 (-1)), PStr EmptyString).
Proof.
  refine (proj2 (malformed_structured_falls_through doc_words
                   [("lat", PStr "north"); ("lng", PStr "south")]
                   (PStr "north") (PStr "south") (Some "1.0,2.0")
                   _ _ _ _) "1.0" "2.0" _ _ _ _ _ _);
    try (vm_compute; reflexivity).
  left. vm_compute. reflexivity.
Defined.

(** A text with two commas: the second variant reads its first two
    parts. *)
Lemma second_variant_splits_every_comma :
  V2.parse_location PNone (Some "1.0,2.0,3.0")
  = (PFloat (dec 10 (-1)), PFloat (dec 20 (-1)), PNone) /\
  Float.of_string "2.0,3.0" = None.
Proof. split; vm_compute; reflexivity. Qed.

(** C2, amended. Without a usable structured value and with a comma in
    the display text, the first variant cuts the text at its first comma
    into two parts, strips both and parses both as floating point, and
    returns no coordinates when a parse fails; so the text 1.0,2.0,3.0
    yields none. The second variant cuts at every comma and parses the
    first two parts in the same way. In both, the examples of the
    specification hold and the result is a value, not an exception. *)
Theorem text_fallback_parse :
  (forall raw_value a b,
      V1.location_of_value raw_value = None -> Str.contains "," a = false ->
      V1.parse_location raw_value (Some (a ++ "," ++ b)%string)
      = match Float.of_string (Str.strip a), Float.of_string (Str.strip b) with
        | Some x, Some y => (Some x, Some y, PStr EmptyString)
        | _, _ => (None, None, PStr EmptyString)
        end) /\
  V1.parse_location None (Some "1.0,2.0,3.0") = (None, None, PStr EmptyString) /\
  V1.parse_location None (Some "34.05, -118.25")
  = (Some (dec 3405 (-2)), Some (dec (-11825) (-2)), PStr EmptyString) /\
  V1.parse_location None (Some "not,a,number") = (None, None, PStr EmptyString) /\
  (forall value_obj a b tail,
      (forall d, value_obj = PDict d ->
                 Dict.mem "lat" d && Dict.mem "lng" d = false) ->
      Str.contains "," a = false -> Str.contains "," b = false ->
      tail = EmptyString \/ (exists more, tail = String "," more) ->
      V2.parse_location value_obj (Some (a ++ "," ++ b ++ tail)%string)
      = match Float.of_string (Str.strip a), Float.of_string (Str.strip b) with
        | Some x, Some y => (PFloat x, PFloat y, PNone)
        | _, _ => (PNone, PNone, PNone)
        end) /\
  V2.parse_location PNone (Some "34.05, -118.25")
  = (PFloat (dec 3405 (-2)), PFloat (dec (-11825) (-2)), PNone) /\
  V2.parse_location PNone (Some "not,a,number") = (PNone, PNone, PNone).
Proof.
  split; [| split; [| split; [| split; [| split; [| split]]]]].
  - intros raw_value a b Hv Ha. unfold V1.parse_location.
    rewrite Hv, (v1_location_of_text a b Ha).
    destruct (Float.of_string (Str.strip a)), (Float.of_string (Str.strip b));
      reflexivity.
  - vm_compute. reflexivity.
  - vm_compute. reflexivity.
  - vm_compute. reflexivity.
  - intros value_obj a b tail Hobj Ha Hb Htail.
    rewrite <- (v2_location_of_text a b tail Ha Hb Htail).
    unfold V2.parse_location. destruct value_obj; try reflexivity.
    rewrite (Hobj kv eq_refl). reflexivity.
  - vm_compute. reflexivity.
  - vm_compute. reflexivity.
Qed.

Lemma text_fallback_parse_witness :
  V1.parse_location (Some "[1, 2]") (Some " 34.05 , -118.25 ")
  = (Some (dec 3405 (-2)), Some (dec (-11825) (-2)), PStr EmptyString) /\
  V2.parse_location (PList [PInt 1; PInt 2]) (Some "1.0,2.0,3.0")
  = (PFloat (dec 10 (-1)), PFloat (dec 20 (-1)), PNone).
Proof.
  split.
  - apply (proj1 text_fallback_parse (Some "[1, 2]") " 34.05 " " -118.25 ");
      vm_compute; reflexivity.
  - refine (proj1 (proj2 (proj2 (proj2 (proj2 text_fallback_parse))))
              (PList [PInt 1; PInt 2]) "1.0" "2.0" ",3.0" _ _ _ _).
    + intros d H. discriminate H.
    + vm_compute; reflexivity.
    + vm_compute; reflexivity.
    + right. exists "3.0". reflexivity.
Defined.

End Location.

(** ** Rounding keeps the sign *)

Module FloatSign.

Import Float.

Lemma shr_1_nonneg (mrs : shr_record) :
  0 <= shr_m mrs -> 0 <= shr_m (shr_1 mrs).
Proof.
  destruct mrs as [m r s]. cbn [shr_m].
  destruct m as [|[p|p|]|[p|p|]]; cbn; lia.
Qed.

Lemma iter_shr_1_nonneg (p : positive) (mrs : shr_record) :
  0 <= shr_m mrs -> 0 <= shr_m (iter_pos shr_1 p mrs).
Proof.
  revert mrs. induction p as [p IH|p IH|]; intros mrs H; cbn [iter_pos].
  - apply IH, IH, shr_1_nonneg, H.
  - apply IH, IH, H.
  - apply shr_1_nonneg, H.
Qed.

Lemma shr_fexp_nonneg (m e : Z) (l : location) :
  0 <= m -> 0 <= shr_m (fst (shr_fexp prec emax m e l)).
Proof.
  intros H. unfold shr_fexp, shr.
  assert (H0 : 0 <= shr_m (shr_record_of_loc m l))
    by (destruct l as [|[| |]]; exact H).
  destruct (fexp prec emax (Zdigits2 m + e) - e); cbn [fst];
    [exact H0 | apply iter_shr_1_nonneg, H0 | exact H0].
Qed.

Lemma round_nearest_even_nonneg (m : Z) (l : location) :
  0 <= m -> 0 <= round_nearest_even m l.
Proof.
  intros H. destruct l as [|[| |]]; cbn; [lia | | lia | lia].
  destruct (Z.even m); lia.
Qed.

(** Rounding a non-negative mantissa under a clear sign bit gives zero, a
    positive number or positive infinity. *)
Lemma binary_round_aux_sign_clear (m e : Z) (l : location) :
  0 <= m -> sign_clear (binary_round_aux prec emax false m e l) = true.
Proof.
  intros H. unfold binary_round_aux.
  pose proof (shr_fexp_nonneg m e l H) as H1.
  destruct (shr_fexp prec emax m e l) as [mrs' e']. cbn [fst] in H1.
  pose proof (round_nearest_even_nonneg _ (loc_of_shr_record mrs') H1) as H2.
  pose proof (shr_fexp_nonneg _ e' loc_Exact H2) as H3.
  destruct (shr_fexp prec emax _ e' loc_Exact) as [mrs'' e'']. cbn [fst] in H3.
  destruct (shr_m mrs'') as [|p|p]; [reflexivity | | lia].
  destruct (e'' <=? emax - prec); reflexivity.
Qed.

Lemma of_decimal_sign_clear (m e : Z) :
  sign_clear (of_decimal false m e) = true.
Proof.
  unfold of_decimal. destruct m as [|p|p]; try reflexivity.
  assert (Hround : forall n, sign_clear (binary_round prec emax false n 0) = true).
  { intros n. unfold binary_round.
    destruct (shl_align n 0 _) as [mz ez].
    apply binary_round_aux_sign_clear. lia. }
  destruct e as [|k|k].
  - destruct (Z.pos p * 10 ^ 0); [reflexivity | apply Hround | reflexivity].
  - destruct (Z.pos p * 10 ^ Z.pos k); [reflexivity | apply Hround | reflexivity].
  - unfold SFdiv_core_binary.
    set (m' := match _ - _ with Z0 => _ | Zpos _ => _ | Zneg _ => _ end).
    assert (Hm' : 0 <= m').
    { subst m'. destruct (_ - _); [lia | apply Z.shiftl_nonneg; lia | lia]. }
    pose proof (Z.div_eucl_eq m' (10 ^ Z.pos k)) as Heq.
    pose proof (Z.mod_pos_bound m' (10 ^ Z.pos k)) as Hmod.
    unfold Z.modulo in Hmod.
    destruct (Z.div_eucl m' (10 ^ Z.pos k)) as [q r].
    apply binary_round_aux_sign_clear.
    assert (Hpow : 0 < 10 ^ Z.pos k) by (apply Z.pow_pos_nonneg; lia).
    specialize (Heq ltac:(lia)). specialize (Hmod Hpow). nia.
Qed.

Lemma sign_clear_at_least_zero (x : float) :
  sign_clear x = true -> leb zero x = true /\ ltb x zero = false.
Proof.
  destruct x as [[|]|[|]| |[|] m e]; cbn; intros H;
    try discriminate; split; reflexivity.
Qed.

End FloatSign.

(** ** Monetary value extraction *)

Module Money.

Import Sample.

Lemma remove_both (t : string) :
  Str.remove "," (Str.remove "$" t)
  = Spec.drop_chars (fun c => Ascii.eqb c "$" || Ascii.eqb c ",") t.
Proof.
  induction t as [|c t IH]; cbn; [reflexivity |].
  destruct (Ascii.eqb c "$") eqn:Ed; cbn.
  - exact IH.
  - destruct (Ascii.eqb c ","); cbn; [exact IH | f_equal; exact IH].
Qed.

(** The second variant keeps the digits of a negated amount and reads a
    number out of a text that is none. *)
Lemma second_variant_reads_first_number :
  V2.order_value_num (Some "-500") = Some (dec 500 0) /\
  Spec.monetary (Some "-500") = Some (dec (-500) 0) /\
  V2.order_value_num (Some "abc 12") = Some (dec 12 0) /\
  Spec.monetary (Some "abc 12") = None.
Proof. by_evaluation. Qed.

(** C3, amended. In the first variant the numeric order value of every
    display text is the one the specification words: dollar signs, commas
    and surrounding whitespace are dropped, an empty rest is absent,
    otherwise the floating-point parse of the rest, absent when the rest is
    no number; the result is a value, never an exception. The three
    examples hold in both variants. *)
Theorem monetary_extraction :
  (forall text, V1.order_value text = Spec.monetary text) /\
  V1.order_value (Some "$1,234.50") = Some (dec 123450 (-2)) /\
  V1.order_value (Some EmptyString) = None /\
  V1.order_value (Some "—") = None /\
  V1.order_value None = None /\
  V2.order_value_num (Some "$1,234.50") = Some (dec 123450 (-2)) /\
  V2.order_value_num (Some EmptyString) = None /\
  V2.order_value_num (Some "—") = None.
Proof.
  split; [| by_evaluation].
  intros [t|]; [| reflexivity].
  unfold V1.order_value, Spec.monetary, truthy.
  destruct t as [|c t]; [reflexivity |].
  cbn [Str.is_empty negb]. rewrite remove_both.
  destruct (Str.strip _); reflexivity.
Qed.

Lemma span_num_run (tok post : string) :
  Str.all_chars V2.is_num_char tok = true ->
  match post with
  | String c _ => V2.is_num_char c = false
  | EmptyString => True
  end ->
  V2.span_num (tok ++ post)%string = tok.
Proof.
  intros Htok Hpost. induction tok as [|c tok IH]; cbn in *.
  - destruct post as [|c r]; [reflexivity |]. cbn. rewrite Hpost. reflexivity.
  - apply andb_true_iff in Htok as [Hc Htok]. rewrite Hc, (IH Htok). reflexivity.
Qed.

(** The leftmost run of digits and points is the one extracted. *)
Lemma extract_numeric_run (pre tok post : string) :
  Str.all_chars (fun c => negb (V2.is_num_char c)) pre = true ->
  tok <> EmptyString ->
  Str.all_chars V2.is_num_char tok = true ->
  match post with
  | String c _ => V2.is_num_char c = false
  | EmptyString => True
  end ->
  V2.extract_numeric (pre ++ tok ++ post)%string = Some tok.
Proof.
  intros Hpre Hne Htok Hpost. induction pre as [|c pre IH]; cbn in *.
  - destruct tok as [|c tok]; [contradiction Hne; reflexivity |].
    pose proof (span_num_run (String c tok) post Htok Hpost) as Hspan.
    cbn in Htok. apply andb_true_iff in Htok as [Hc _].
    cbn [String.append V2.extract_numeric]. rewrite Hc.
    cbn [String.append] in Hspan. rewrite Hspan. reflexivity.
  - apply andb_true_iff in Hpre as [Hc Hpre].
    apply negb_true_iff in Hc. rewrite Hc. exact (IH Hpre).
Qed.

(** C9. In the second variant the numeric order value is read from the
    first run of digits and points left after the commas are removed, so a
    sign and the text around the run are discarded: -500 gives 500, and
    Total: 1200.50 USD gives 1200.50. Whatever the text, a value that is
    produced is zero or above it. *)
Theorem first_number_never_negative :
  V2.order_value_num (Some "-500") = Some (dec 500 0) /\
  V2.order_value_num (Some "Total: 1200.50 USD") = Some (dec 120050 (-2)) /\
  (forall t pre tok post,
      Str.remove "," t = (pre ++ tok ++ post)%string ->
      Str.all_chars (fun c => negb (V2.is_num_char c)) pre = true ->
      tok <> EmptyString ->
      Str.all_chars V2.is_num_char tok = true ->
      match post with
      | String c _ => V2.is_num_char c = false
      | EmptyString => True
      end ->
      V2.order_value_num (Some t) = V2.to_numeric tok) /\
  (forall text v,
      V2.order_value_num text = Some v ->
      Float.sign_clear v = true /\
      Float.leb Float.zero v = true /\ Float.ltb v Float.zero = false).
Proof.
  split; [vm_compute; reflexivity |].
  split; [vm_compute; reflexivity |].
  split.
  - intros t pre tok post Heq Hpre Hne Htok Hpost.
    unfold V2.order_value_num.
    rewrite Heq, (extract_numeric_run pre tok post Hpre Hne Htok Hpost).
    reflexivity.
  - intros text v H. unfold V2.order_value_num, V2.to_numeric in H.
    destruct text as [t|]; [| discriminate].
    destruct (V2.extract_numeric _) as [tok|]; [| discriminate].
    destruct (Float.parse_decimal tok) as [[m e]|]; [| discriminate].
    injection H as <-.
    pose proof (FloatSign.of_decimal_sign_clear m e) as Hs.
    split; [exact Hs | apply FloatSign.sign_clear_at_least_zero, Hs].
Qed.

Lemma first_number_never_negative_witness :
  V2.order_value_num (Some "USD -1,250.75 net") = V2.to_numeric "1250.75" /\
  Float.sign_clear (dec 125075 (-2)) = true /\
  Float.leb Float.zero (dec 125075 (-2)) = true /\
  Float.ltb (dec 125075 (-2)) Float.zero = false.
Proof.
  split.
  - apply (proj1 (proj2 (proj2 first_number_never_negative))
             "USD -1,250.75 net" "USD -" "1250.75" " net");
      try (vm_compute; reflexivity).
    discriminate.
  - apply (proj2 (proj2 (proj2 first_number_never_negative))
             (Some "USD -1,250.75 net") (dec 125075 (-2))).
    vm_compute. reflexivity.
Defined.

End Money.

(** ** The table of the first variant *)

Module Table.

Import Sample.

Lemma get_set_other {V : Type} (k k' : string) (v : V) (d : list (string * V)) :
  k <> k' -> Dict.get k (Dict.set k' v d) = Dict.get k d.
Proof.
  intros Hne. induction d as [|[k0 v0] d IH]; cbn.
  - destruct (String.eqb_spec k' k); [congruence | reflexivity].
  - destruct (String.eqb_spec k0 k') as [-> | H0]; cbn.
    + destruct (String.eqb_spec k' k); [congruence | reflexivity].
    + destruct (String.eqb_spec k0 k); [reflexivity | exact IH].
Qed.

(** Writing the detail columns leaves a key that is no detail title as it
    was. *)
Lemma get_after_details (f : string -> pyobj) (k : string)
    (titles : list string) (r : V1.row) :
  ~ In k titles ->
  Dict.get k (fold_left (fun r t => Dict.set t (f t) r) titles r) = Dict.get k r.
Proof.
  revert r. induction titles as [|t titles IH]; intros r Hk; cbn; [reflexivity |].
  rewrite IH by (intros H; apply Hk; right; exact H).
  apply get_set_other. intros ->. apply Hk. left. reflexivity.
Qed.

Lemma build_rows_from (ov loc : string) (extra : list string)
    (items : list item) (rows : list V1.row) :
  fold_left
    (fun (rows : list V1.row) it =>
       match V1.row_of_item ov loc extra it with
       | Some r => rows ++ [r]
       | None => rows
       end)
    items rows
  = rows ++ flat_map (fun it => match V1.row_of_item ov loc extra it with
                                | Some r => [r]
                                | None => []
                                end) items.
Proof.
  revert rows.
  induction items as [|it items IH]; intros rows; cbn [fold_left flat_map].
  - rewrite app_nil_r. reflexivity.
  - destruct (V1.row_of_item ov loc extra it); rewrite IH.
    + rewrite <- app_assoc. reflexivity.
    + reflexivity.
Qed.

(** What a row holds when the loop appends one. *)
Lemma row_of_item_fields (ov loc : string) (extra : list string)
    (it : item) (r : V1.row) :
  ~ In "lat" extra -> ~ In "lng" extra -> ~ In "order_value" extra ->
  V1.row_of_item ov loc extra it = Some r ->
  exists v la ln addr,
    V1.normalize ov loc it = (Some v, (Some la, Some ln, addr)) /\
    Dict.get "order_value" r = Some (PFloat v) /\
    Dict.get "lat" r = Some (PFloat la) /\
    Dict.get "lng" r = Some (PFloat ln).
Proof.
  intros Hlat Hlng Hov. unfold V1.row_of_item.
  destruct (V1.normalize ov loc it) as [v [[la ln] addr]].
  destruct la as [la|], ln as [ln|], v as [v|]; cbn [is_none orb];
    try discriminate.
  intros H. injection H as <-.
  exists v, la, ln, addr.
  rewrite !get_after_details by assumption.
  repeat split; reflexivity.
Qed.

(** What the loop does keep of its policy: the table is, in fetch order,
    the rows of the items whose normalisation has a latitude, a longitude
    and a numeric order value; an item that misses one of them contributes
    no row; and, the detail titles being none of the keys of these three
    fields, every row of the table holds a float under each of them, the
    one extracted from its item. *)
Theorem policy_a_rows_complete
    (ov loc : string) (extra : list string) (items : list item) :
  V1.build_rows ov loc extra items
  = flat_map (fun it => match V1.row_of_item ov loc extra it with
                        | Some r => [r]
                        | None => []
                        end) items /\
  (forall it,
      V1.row_of_item ov loc extra it = None <->
      (fst (V1.normalize ov loc it) = None \/
       fst (fst (snd (V1.normalize ov loc it))) = None \/
       snd (fst (snd (V1.normalize ov loc it))) = None)) /\
  (~ In "lat" extra -> ~ In "lng" extra -> ~ In "order_value" extra ->
   forall r,
      In r (V1.build_rows ov loc extra items) ->
      exists it v la ln addr,
        In it items /\
        V1.row_of_item ov loc extra it = Some r /\
        V1.normalize ov loc it = (Some v, (Some la, Some ln, addr)) /\
        Dict.get "order_value" r = Some (PFloat v) /\
        Dict.get "lat" r = Some (PFloat la) /\
        Dict.get "lng" r = Some (PFloat ln)).
Proof.
  assert (Hrows : V1.build_rows ov loc extra items
                  = flat_map (fun it => match V1.row_of_item ov loc extra it with
                                        | Some r => [r]
                                        | None => []
                                        end) items)
    by (unfold V1.build_rows; rewrite build_rows_from; reflexivity).
  split; [exact Hrows | split].
  - intros it. unfold V1.row_of_item.
    destruct (V1.normalize ov loc it) as [v [[la ln] addr]]. cbn [fst snd].
    destruct la, ln, v; cbn [is_none orb]; split; intros H;
      try discriminate; try reflexivity; auto;
      destruct H as [H | [H | H]]; discriminate.
  - intros Hlat Hlng Hov r Hr. rewrite Hrows in Hr.
    apply in_flat_map in Hr as (it & Hit & Hr).
    destruct (V1.row_of_item ov loc extra it) as [r'|] eqn:E; [| contradiction].
    destruct Hr as [<- | []].
    destruct (row_of_item_fields ov loc extra it r' Hlat Hlng Hov E)
      as (v & la & ln & addr & Hn & H1 & H2 & H3).
    exists it, v, la, ln, addr. auto 10.
Qed.

Lemma policy_a_rows_complete_witness :
  exists it v la ln addr,
    In it [item_ok; item_no_value; item_no_location] /\
    V1.row_of_item ORDER_VALUE_COLUMN_TITLE LOCATION_COLUMN_TITLE
      EXTRA_DETAIL_COLUMNS it = Some row_ok /\
    V1.normalize ORDER_VALUE_COLUMN_TITLE LOCATION_COLUMN_TITLE it
    = (Some v, (Some la, Some ln, addr)) /\
    Dict.get "order_value" row_ok = Some (PFloat v) /\
    Dict.get "lat" row_ok = Some (PFloat la) /\
    Dict.get "lng" row_ok = Some (PFloat ln).
Proof.
  apply (proj2 (proj2 (policy_a_rows_complete
                         ORDER_VALUE_COLUMN_TITLE LOCATION_COLUMN_TITLE
                         EXTRA_DETAIL_COLUMNS
                         [item_ok; item_no_value; item_no_location])));
    [intros [H | [H | [H | []]]]; discriminate H ..
    | vm_compute; left; reflexivity].
Defined.

(** C4. The defect: the detail columns are written into the row after the
    test for missing fields, under their titles, so a detail title that is
    one of the keys [lat], [lng] and [order_value] replaces that field.
    With [lat] as the only detail title, the order [item_ok], whose
    location and value are both read, enters the table with [None] as its
    latitude (it has no column titled [lat]); the same happens to the
    longitude and to the order value under the titles [lng] and
    [order_value]. *)
Theorem detail_title_overwrites_latitude :
  V1.normalize ORDER_VALUE_COLUMN_TITLE LOCATION_COLUMN_TITLE item_ok
  = (Some (dec 123450 (-2)),
     (Some (dec 3405 (-2)), Some (dec (-11825) (-2)), PStr EmptyString)) /\
  V1.build_rows ORDER_VALUE_COLUMN_TITLE LOCATION_COLUMN_TITLE ["lat"]
    [item_ok]
  = [[("id", PStr "1"); ("name", PStr "Acme");
      ("updated_at", PStr "2024-01-02T00:00:00Z");
      ("order_value", PFloat (dec 123450 (-2)));
      ("lat", PNone); ("lng", PFloat (dec (-11825) (-2)));
      ("address", PStr EmptyString)]] /\
  (forall r,
      In r (V1.build_rows ORDER_VALUE_COLUMN_TITLE LOCATION_COLUMN_TITLE
              ["lat"] [item_ok]) ->
      Dict.get "lat" r = Some PNone) /\
  (forall r,
      In r (V1.build_rows ORDER_VALUE_COLUMN_TITLE LOCATION_COLUMN_TITLE
              ["lng"] [item_ok]) ->
      Dict.get "lng" r = Some PNone) /\
  (forall r,
      In r (V1.build_rows ORDER_VALUE_COLUMN_TITLE LOCATION_COLUMN_TITLE
              ["order_value"] [item_ok]) ->
      Dict.get "order_value" r = Some PNone).
Proof.
  split; [vm_compute; reflexivity |].
  split; [vm_compute; reflexivity |].
  split; [| split]; intros r Hr; vm_compute in Hr;
    destruct Hr as [<- | []]; vm_compute; reflexivity.
Qed.

(** The table built from an order with all three fields, one whose value
    is a dash and one without a location. *)
Example build_rows_sample :
  V1.build_rows ORDER_VALUE_COLUMN_TITLE LOCATION_COLUMN_TITLE
    EXTRA_DETAIL_COLUMNS [item_ok; item_no_value; item_no_location]
  = [row_ok].
Proof. vm_compute. reflexivity. Qed.

End Table.

(** ** Filters of the second variant, and the range mask of the first *)

Module Filters.

Import Sample.

Lemma isin_spec (st : V2.filter_state) (r : V2.frow) :
  V2.status_isin st r = true <->
  exists s, V2.status (V2.base r) = Some s /\ In s (V2.status_sel st).
Proof.
  unfold V2.status_isin. destruct (V2.status (V2.base r)) as [s|].
  - rewrite existsb_exists. split.
    + intros (x & Hx & Heq). apply String.eqb_eq in Heq. subst x.
      exists s. auto.
    + intros (x & Hx & Hin). injection Hx as Hx. subst x.
      exists s. split; [exact Hin | apply String.eqb_refl].
  - split; [discriminate | intros (s & H & _); discriminate].
Qed.

Lemma insert_sorted_In (s x : string) (l : list string) :
  In x (V2.insert_sorted s l) <-> x = s \/ In x l.
Proof.
  induction l as [|y l IH]; cbn.
  - intuition congruence.
  - destruct (String.leb s y); cbn; [intuition congruence |].
    rewrite IH. intuition congruence.
Qed.

(** The options of the status filter are the statuses observed. *)
Lemma status_options_In (df : list V2.frow) (s : string) :
  In s (V2.status_options df) <->
  exists r, In r df /\ V2.status (V2.base r) = Some s.
Proof.
  unfold V2.status_options.
  set (seen := flat_map _ df).
  assert (Hsort : forall l, In s (fold_right V2.insert_sorted [] l) <-> In s l).
  { induction l as [|y l IH]; cbn; [reflexivity |].
    rewrite insert_sorted_In, IH. intuition congruence. }
  rewrite Hsort, nodup_In. subst seen. rewrite in_flat_map.
  split; intros (r & Hr & H); exists r; split; try assumption.
  - destruct (V2.status (V2.base r)) as [s'|]; [| contradiction].
    destruct H as [-> | []]. reflexivity.
  - rewrite H. left. reflexivity.
Qed.

(** Options and no selection: the status stage keeps every row. *)
Lemma empty_selection_keeps_every_row :
  V2.status_options with_status = ["Done"; "Open"] /\
  V2.status_sel (range_only 0 1000 []) = [] /\
  V2.filter_status with_status (range_only 0 1000 []) with_status = with_status.
Proof. by_evaluation. Qed.

(** C6, amended. With a status filter configured (some status observed)
    and at least one status selected, a row passes the status predicate
    exactly when its status is one of the selected; with no status
    selected every row passes; and with no status filter configured (no
    status observed) every row passes. *)
Theorem status_predicate (df out : list V2.frow) (st : V2.filter_state) :
  (V2.status_options df <> [] -> V2.status_sel st <> [] ->
   forall r,
     In r (V2.filter_status df st out) <->
     In r out /\
     exists s, V2.status (V2.base r) = Some s /\ In s (V2.status_sel st)) /\
  (V2.status_sel st = [] -> V2.filter_status df st out = out) /\
  (V2.status_options df = [] -> V2.filter_status df st out = out) /\
  (V2.status_options df = [] <->
   forall r, In r df -> V2.status (V2.base r) = None).
Proof.
  unfold V2.filter_status. split; [| split; [| split; [| split]]].
  - intros Hopt Hsel r.
    destruct (V2.status_options df); [congruence |].
    destruct (V2.status_sel st) eqn:E; [congruence |]. rewrite <- E.
    rewrite filter_In, isin_spec. reflexivity.
  - intros ->. destruct (V2.status_options df); reflexivity.
  - intros ->. reflexivity.
  - intros Hopt r Hr. destruct (V2.status (V2.base r)) as [s|] eqn:E;
      [| reflexivity].
    assert (Hin : In s (V2.status_options df))
      by (apply status_options_In; exists r; auto).
    rewrite Hopt in Hin. contradiction.
  - intros Hnone. destruct (V2.status_options df) as [|s l] eqn:E;
      [reflexivity |].
    assert (Hin : In s (V2.status_options df)) by (rewrite E; left; reflexivity).
    apply status_options_In in Hin as (r & Hr & Hs).
    rewrite (Hnone r Hr) in Hs. discriminate.
Qed.

Lemma status_predicate_witness :
  In (frow_of "a" (Some "10") (Some "Open"))
     (V2.filter_status with_status (range_only 0 1000 ["Open"]) with_status) /\
  V2.filter_status with_status (range_only 0 1000 []) with_status = with_status /\
  V2.filter_status values_10_50_200 (range_only 0 1000 ["Open"]) with_status
  = with_status.
Proof.
  split; [| split].
  - apply (proj1 (status_predicate with_status with_status
                    (range_only 0 1000 ["Open"]))).
    + vm_compute. discriminate.
    + discriminate.
    + split; [left; reflexivity |].
      exists "Open". split; [reflexivity | left; reflexivity].
  - apply (proj1 (proj2 (status_predicate with_status with_status
                           (range_only 0 1000 [])))).
    reflexivity.
  - apply (proj1 (proj2 (proj2 (status_predicate values_10_50_200 with_status
                                  (range_only 0 1000 ["Open"]))))).
    vm_compute. reflexivity.
Defined.



End Filters.

(** ** Pagination *)

Module Pagination.

Import Sample.

Section Chains.
Context {Src : Type}.
Variable monday : Src -> option string -> option (page * Src).

(** The loop of the first variant along a chain of pages: one request per
    page, the items appended page after page. *)
Lemma v1_fetch_chain (s : Src) (cursor : option string) (pages : list page) :
  page_chain monday s cursor pages ->
  forall fuel items requests,
    (List.length pages <= fuel)%nat ->
    V1.fetch_loop monday fuel s cursor items requests
    = Some (items ++ all_items pages, (requests + List.length pages)%nat).
Proof.
  induction 1 as [s c pg s' Hpg Hlast | s c pg s' rest Hpg Hmore Hrest IH];
    intros fuel items requests Hfuel;
    (destruct fuel as [|fuel]; [cbn in Hfuel; lia |]);
    cbn [V1.fetch_loop]; rewrite Hpg.
  - rewrite Hlast. unfold all_items. cbn. rewrite app_nil_r.
    f_equal. f_equal. lia.
  - rewrite Hmore, IH by (cbn in Hfuel; lia).
    unfold all_items. cbn. rewrite app_assoc.
    f_equal. f_equal. lia.
Qed.

(** With fewer turns than pages the loop is cut short. *)
Lemma v1_fetch_short (s : Src) (cursor : option string) (pages : list page) :
  page_chain monday s cursor pages ->
  forall fuel items requests,
    (fuel < List.length pages)%nat ->
    V1.fetch_loop monday fuel s cursor items requests = None.
Proof.
  induction 1 as [s c pg s' Hpg Hlast | s c pg s' rest Hpg Hmore Hrest IH];
    intros fuel items requests Hfuel;
    (destruct fuel as [|fuel]; [reflexivity |]);
    cbn [V1.fetch_loop]; rewrite Hpg.
  - cbn in Hfuel. lia.
  - rewrite Hmore. apply IH. cbn in Hfuel. lia.
Qed.

Lemma v2_rows_from (w : V2.wanted) (items : list item) (rows : list V2.row) :
  fold_left (fun (acc : list V2.row) it => acc ++ [V2.row_of_item w it])
            items rows
  = rows ++ map (V2.row_of_item w) items.
Proof.
  revert rows. induction items as [|it items IH]; intros rows;
    cbn [fold_left map].
  - rewrite app_nil_r. reflexivity.
  - rewrite IH, <- app_assoc. reflexivity.
Qed.

(** The loop of the second variant along a chain of pages, for a board id
    that is an integer. *)
Lemma v2_fetch_chain (w : V2.wanted) (board_id : string) (b : Z)
    (s : Src) (cursor : option string) (pages : list page) :
  py_int board_id = Some b ->
  page_chain monday s cursor pages ->
  forall fuel rows requests,
    (List.length pages <= fuel)%nat ->
    V2.fetch_loop monday w board_id fuel s cursor rows requests
    = Some (rows ++ map (V2.row_of_item w) (all_items pages),
            (requests + List.length pages)%nat).
Proof.
  intros Hint.
  induction 1 as [s c pg s' Hpg Hlast | s c pg s' rest Hpg Hmore Hrest IH];
    intros fuel rows requests Hfuel;
    (destruct fuel as [|fuel]; [cbn in Hfuel; lia |]);
    cbn [V2.fetch_loop]; rewrite Hint, Hpg, v2_rows_from.
  - rewrite Hlast. unfold all_items. cbn. rewrite app_nil_r.
    f_equal. f_equal. lia.
  - rewrite Hmore, IH by (cbn in Hfuel; lia).
    unfold all_items. cbn. rewrite map_app, app_assoc.
    f_equal. f_equal. lia.
Qed.

Lemma v2_fetch_short (w : V2.wanted) (board_id : string)
    (s : Src) (cursor : option string) (pages : list page) :
  page_chain monday s cursor pages ->
  forall fuel rows requests,
    (fuel < List.length pages)%nat ->
    V2.fetch_loop monday w board_id fuel s cursor rows requests = None.
Proof.
  induction 1 as [s c pg s' Hpg Hlast | s c pg s' rest Hpg Hmore Hrest IH];
    intros fuel rows requests Hfuel;
    (destruct fuel as [|fuel]; [reflexivity |]);
    cbn [V2.fetch_loop]; (destruct (py_int board_id); [| reflexivity]);
    rewrite Hpg.
  - cbn in Hfuel. lia.
  - rewrite Hmore. apply IH. cbn in Hfuel. lia.
Qed.

End Chains.

(** The rows of a frame are the rows it was made of, in their order. *)
Lemma frame_base (to_date : string -> option Z) (rows : list V2.row) :
  map V2.base (V2.frame_of_rows to_date rows) = rows.
Proof.
  unfold V2.frame_of_rows. rewrite map_map.
  erewrite map_ext; [apply map_id |]. intros r. reflexivity.
Qed.

(** A row carries the id of its item. *)
Lemma row_ids (w : V2.wanted) (items : list item) :
  map V2.item_id (map (V2.row_of_item w) items) = map it_id items.
Proof.
  rewrite map_map. apply map_ext. intros it. unfold V2.row_of_item.
  destruct (V2.parse_location _ _) as [[la ln] addr]. reflexivity.
Qed.

(** A list of pages of which all but the last carry a cursor is what the
    source that serves them one after the other answers with. *)
Lemma serving_chain (pages : list page) (last : page) (c : option string) :
  (forall pg, In pg pages -> truthy (pg_cursor pg) = true) ->
  truthy (pg_cursor last) = false ->
  page_chain serving (pages ++ [last]) c (pages ++ [last]).
Proof.
  revert c. induction pages as [|pg pages IH]; intros c Hall Hlast.
  - apply chain_last with (s' := []); [reflexivity | exact Hlast].
  - apply chain_next with (s' := pages ++ [last]).
    + reflexivity.
    + apply Hall. left. reflexivity.
    + apply IH; [| exact Hlast]. intros x Hx. apply Hall. right. exact Hx.
Qed.

(** The fetch of the second variant does not always end after one request
    per page: with a board id that is no integer it raises on the first
    turn, before any request, whatever pages the source would serve and
    however many turns it is allowed. *)
Lemma board_id_must_be_an_integer :
  page_chain serving same_cursor_pages None same_cursor_pages /\
  py_int "my board" = None /\
  (forall fuel,
      V2.fetch_items serving (fun _ => None) wanted_ids fuel
        same_cursor_pages "my board" "token"
      = None).
Proof.
  split; [| split; [reflexivity |]].
  - apply (serving_chain (firstn 2 same_cursor_pages) page3 None).
    + intros pg [<- | [<- | []]]; reflexivity.
    + reflexivity.
  - intros [|fuel]; reflexivity.
Qed.

(** The call of the script goes through the cache: within a minute of a
    fetch the frame is returned again without a request, and after that
    the function runs again, here against a source that has nothing left
    to serve. *)
Example cache_replays_for_a_minute :
  match V2.cached_fetch_items serving (fun _ => None) wanted_ids 3
          same_cursor_pages [] 1000 "1234567" "token" with
  | Some (df, n, cache) =>
      n = 3%nat /\
      V2.cached_fetch_items serving (fun _ => None) wanted_ids 3
        [] cache 1059 "1234567" "token"
      = Some (df, 0%nat, cache) /\
      V2.cached_fetch_items serving (fun _ => None) wanted_ids 3
        [] cache 1060 "1234567" "token"
      = None
  | None => False
  end.
Proof. vm_compute. split; [reflexivity | split; reflexivity]. Qed.

(** C8. When the answers of the source to the successive requests of the
    loop (the first without a cursor, each next one with the cursor of the
    page before) are a finite sequence of pages, each but the last with a
    non-empty cursor and the last without, the fetch of either variant
    ends after one request per page, with the items of all pages in page
    order and, within a page, in the order of the page; the frame of the
    second variant holds one row per item, in that order, each with the id
    of its item. The source may answer the same cursor differently at
    different times, so two pages may carry the same cursor. The loop
    needs as many turns as there are pages: with fewer it is cut short,
    and three pages take exactly three requests. The second variant
    converts the board id to an integer at every turn, so what is said of
    it is for a board id that is an integer; for any other non-empty board
    id it raises before the first request. *)
Theorem pagination_terminates {Src : Type}
    (monday : Src -> option string -> option (page * Src))
    (s : Src) (pages : list page) :
  page_chain monday s None pages ->
  (forall fuel,
      (List.length pages <= fuel)%nat ->
      V1.fetch_all monday fuel s = Some (all_items pages, List.length pages)) /\
  (forall fuel,
      (fuel < List.length pages)%nat -> V1.fetch_all monday fuel s = None) /\
  (forall to_date w fuel board_id api_token,
      Str.is_empty api_token = false -> Str.is_empty board_id = false ->
      py_int board_id <> None ->
      (List.length pages <= fuel)%nat ->
      let df := V2.frame_of_rows to_date
                  (map (V2.row_of_item w) (all_items pages)) in
      V2.fetch_items monday to_date w fuel s board_id api_token
      = Some (df, List.length pages) /\
      map V2.base df = map (V2.row_of_item w) (all_items pages) /\
      map V2.item_id (map V2.base df) = map it_id (all_items pages) /\
      List.length df = List.length (all_items pages)) /\
  (forall to_date w fuel board_id api_token,
      Str.is_empty api_token = false -> Str.is_empty board_id = false ->
      (fuel < List.length pages)%nat \/ py_int board_id = None ->
      V2.fetch_items monday to_date w fuel s board_id api_token = None) /\
  (List.length pages = 3%nat ->
   V1.fetch_all monday 3 s = Some (all_items pages, 3%nat) /\
   forall to_date w board_id api_token,
     Str.is_empty api_token = false -> Str.is_empty board_id = false ->
     py_int board_id <> None ->
     exists df,
       V2.fetch_items monday to_date w 3 s board_id api_token
       = Some (df, 3%nat) /\
       map V2.item_id (map V2.base df) = map it_id (all_items pages)).
Proof.
  intros Hchain.
  assert (Hv2 : forall to_date w fuel board_id api_token,
             Str.is_empty api_token = false -> Str.is_empty board_id = false ->
             py_int board_id <> None ->
             (List.length pages <= fuel)%nat ->
             V2.fetch_items monday to_date w fuel s board_id api_token
             = Some (V2.frame_of_rows to_date
                       (map (V2.row_of_item w) (all_items pages)),
                     List.length pages)).
  { intros to_date w fuel board_id api_token Htok Hboard Hint Hfuel.
    unfold V2.fetch_items. rewrite Htok, Hboard. cbn [orb].
    destruct (py_int board_id) as [b|] eqn:Eb; [| contradiction Hint; reflexivity].
    rewrite (v2_fetch_chain monday w board_id b s None pages Eb Hchain
               fuel [] 0 Hfuel).
    reflexivity. }
  split; [| split; [| split; [| split]]].
  - intros fuel Hfuel. unfold V1.fetch_all.
    rewrite (v1_fetch_chain monday s None pages Hchain fuel [] 0 Hfuel).
    reflexivity.
  - intros fuel Hfuel. unfold V1.fetch_all.
    apply (v1_fetch_short monday s None pages Hchain). exact Hfuel.
  - intros to_date w fuel board_id api_token Htok Hboard Hint Hfuel df.
    split; [apply Hv2; assumption |]. subst df. rewrite frame_base.
    split; [reflexivity |]. split; [apply row_ids |].
    unfold V2.frame_of_rows. rewrite !length_map. reflexivity.
  - intros to_date w fuel board_id api_token Htok Hboard Hcase.
    unfold V2.fetch_items. rewrite Htok, Hboard. cbn [orb].
    destruct Hcase as [Hfuel | Hint].
    + rewrite (v2_fetch_short monday w board_id s None pages Hchain
                 fuel [] 0%nat Hfuel).
      reflexivity.
    + destruct fuel as [|fuel]; [reflexivity |].
      cbn [V2.fetch_loop]. rewrite Hint. reflexivity.
  - intros Hlen. split.
    + unfold V1.fetch_all.
      rewrite (v1_fetch_chain monday s None pages Hchain 3 [] 0) by lia.
      rewrite Hlen. reflexivity.
    + intros to_date w board_id api_token Htok Hboard Hint.
      exists (V2.frame_of_rows to_date
                (map (V2.row_of_item w) (all_items pages))).
      split.
      * rewrite (Hv2 to_date w 3%nat board_id api_token Htok Hboard Hint)
          by lia.
        rewrite Hlen. reflexivity.
      * rewrite frame_base. apply row_ids.
Qed.

Lemma three_pages_chain :
  page_chain serving same_cursor_pages None same_cursor_pages.
Proof.
  apply (serving_chain (firstn 2 same_cursor_pages) page3 None).
  - intros pg [<- | [<- | []]]; reflexivity.
  - reflexivity.
Defined.

Lemma pagination_terminates_witness :
  V1.fetch_all serving 3 same_cursor_pages
  = Some ([item_ok; item_no_value; item_no_location; mk_item "4" "Dune" []],
          3%nat) /\
  V1.fetch_all serving 2 same_cursor_pages = None /\
  (exists df,
      V2.fetch_items serving (fun _ => None) wanted_ids 3 same_cursor_pages
        "1234567" "token"
      = Some (df, 3%nat) /\
      map V2.item_id (map V2.base df) = ["1"; "2"; "3"; "4"]) /\
  V2.fetch_items serving (fun _ => None) wanted_ids 3 same_cursor_pages
    "my board" "token"
  = None.
Proof.
  pose proof (pagination_terminates serving same_cursor_pages
                same_cursor_pages three_pages_chain)
    as (H1 & H2 & _ & H4 & H5).
  split; [| split; [| split]].
  - apply (H1 3%nat). cbn. lia.
  - apply (H2 2%nat). cbn. lia.
  - apply (proj2 (H5 eq_refl) (fun _ => None) wanted_ids "1234567" "token");
      [reflexivity | reflexivity | discriminate].
  - apply (H4 (fun _ => None) wanted_ids 3%nat "my board" "token");
      [reflexivity | reflexivity | right; reflexivity].
Defined.

End Pagination.

(** ** Arithmetic that yields a number *)

Module FloatNan.

Import Float.













End FloatNan.

(** ** Rounding, as the selection uses it *)
Module Rounding.

Import Float.


Lemma round_half_even_nonneg (num den : Z) :
  0 <= num -> 0 < den -> 0 <= round_half_even num den.
Proof.
  intros Hnum Hden. unfold round_half_even.
  pose proof (Z.div_pos num den Hnum Hden) as Hq.
  destruct (_ ?= _); [destruct (Z.even _) | |]; lia.
Qed.




End Rounding.

(** ** The least key of any frame *)

Module PdOrder.

Import FloatOrder.

Section Smallest.
Context {A : Type}.
Variable key : A -> Float.float.






End Smallest.

End PdOrder.

(** ** Selection lookup of the first variant *)

Module Selection.

Import Sample.

(** The tie-break of the specification: a click on two markers at the
    same rounded coordinates selects the first of them in table order. *)
Example select_nearest_tie :
  V1.select_nearest (dec 4012345 (-5)) (dec (-73) 0) markers
  = nth_error markers 1.
Proof. vm_compute. reflexivity. Qed.

(** A click is rounded to five decimals before distances are taken. *)
Example select_nearest_rounds_click :
  V1.select_nearest (dec 40123451 (-6)) (dec (-730000049) (-7)) markers
  = nth_error markers 1.
Proof. vm_compute. reflexivity. Qed.

(** Rounding the click decides: for the click [(40.123406, -72.999994)]
    the row [q] is selected, at distance [0.00001] from the rounded click
    [(40.12341, -72.99999)], although [p] is the nearer row to the click
    as it was given. *)
Example rounding_the_click_decides :
  V1.select_nearest (dec 40123406 (-6)) (dec (-72999994) (-6)) near_click
  = nth_error near_click 1 /\
  Pd.nsmallest1
    (fun r => Float.add
                (Float.abs (Float.sub (V1.col "lat" r) (dec 40123406 (-6))))
                (Float.abs (Float.sub (V1.col "lng" r) (dec (-72999994) (-6)))))
    near_click
  = nth_error near_click 0.
Proof. by_evaluation. Qed.

(** Rounding the rows decides: for the click [(40.12340, -73.00000)] the
    row [r2] is selected, whose rounded coordinates are at distance
    [0.00001], although [r1] is the nearer row by the coordinates as they
    are stored. *)
Example rounding_the_rows_decides :
  V1.select_nearest (dec 4012340 (-5)) (dec (-73) 0) near_rows
  = nth_error near_rows 1 /\
  Pd.nsmallest1
    (fun r => Float.add
                (Float.abs (Float.sub (V1.col "lat" r) (dec 4012340 (-5))))
                (Float.abs (Float.sub (V1.col "lng" r) (dec (-73) 0))))
    near_rows
  = nth_error near_rows 0.
Proof. by_evaluation. Qed.



End Selection.
(** ** What a fetch that returns has done *)

Module FetchSound.

Import Sample.

Section Loops.
Context {Src : Type}.
Variable monday : Src -> option string -> option (page * Src).



End Loops.



(** X2. The loop has no guard against a source that hands a cursor with
    every page: on such a source it never returns, however many requests
    it is allowed. *)
Theorem fetch_never_returns_without_last_page {Src : Type}
    (monday : Src -> option string -> option (page * Src)) :
  (forall s cursor pg s',
      monday s cursor = Some (pg, s') -> truthy (pg_cursor pg) = true) ->
  forall fuel s,
    V1.fetch_all monday fuel s = None /\
    (forall w board_id cursor rows requests,
        V2.fetch_loop monday w board_id fuel s cursor rows requests = None).
Proof.
  intros Hcur fuel s. split.
  - unfold V1.fetch_all. generalize (@nil item), 0%nat, (@None string).
    revert s.
    induction fuel as [|fuel IH]; intros s items requests cursor;
      [reflexivity |].
    cbn [V1.fetch_loop].
    destruct (monday s cursor) as [[pg s']|] eqn:E; [| reflexivity].
    rewrite (Hcur s cursor pg s' E). apply IH.
  - revert s.
    induction fuel as [|fuel IH]; intros s w board_id cursor rows requests;
      [reflexivity |].
    cbn [V2.fetch_loop]. destruct (py_int board_id); [| reflexivity].
    destruct (monday s cursor) as [[pg s']|] eqn:E; [| reflexivity].
    rewrite (Hcur s cursor pg s' E). apply IH.
Qed.

Lemma fetch_never_returns_without_last_page_witness :
  V1.fetch_all (stateless (fun _ => Some page1)) 1000 tt = None.
Proof.
  apply (fetch_never_returns_without_last_page
           (stateless (fun _ => Some page1))).
  intros s cursor pg s' H. injection H as <- _. reflexivity.
Defined.

End FetchSound.

(** ** More on the extraction of a row *)

Module RowFacts.

Import Sample.

(** X3. In the first variant the coordinates come as a pair: extraction
    returns both a latitude and a longitude or neither, whatever the
    structured value and the display text; and without coordinates the
    address is the empty string. *)
Theorem coordinates_come_in_pairs (raw_value raw_text : option string) :
  (fst (fst (V1.parse_location raw_value raw_text)) = None <->
   snd (fst (V1.parse_location raw_value raw_text)) = None) /\
  (fst (fst (V1.parse_location raw_value raw_text)) = None ->
   snd (V1.parse_location raw_value raw_text) = PStr EmptyString).
Proof.
  assert (Hv : forall r, V1.location_of_value raw_value = Some r ->
                         exists x y a, r = (Some x, Some y, a)).
  { unfold V1.location_of_value. intros r H.
    destruct (truthy raw_value); [| discriminate].
    destruct raw_value as [doc|]; [| discriminate].
    destruct (Json.loads doc) as [[| | | | | |j]|]; try discriminate.
    destruct (Dict.mem "lat" j && Dict.mem "lng" j); [| discriminate].
    destruct (Dict.get "lat" j) as [la|]; [| discriminate].
    destruct (Dict.get "lng" j) as [ln|]; [| discriminate].
    destruct (py_float la) as [x|]; [| discriminate].
    destruct (py_float ln) as [y|]; [| discriminate].
    injection H as <-. eauto. }
  assert (Ht : forall r, V1.location_of_text raw_text = Some r ->
                         exists x y a, r = (Some x, Some y, a)).
  { unfold V1.location_of_text. intros r H.
    destruct raw_text as [t|]; [| discriminate].
    destruct (truthy (Some t) && Str.contains "," t); [| discriminate].
    destruct (Str.split1 "," t) as [|a [|b [|c l]]]; try discriminate.
    destruct (Float.of_string (Str.strip a)) as [x|]; [| discriminate].
    destruct (Float.of_string (Str.strip b)) as [y|]; [| discriminate].
    injection H as <-. eauto. }
  unfold V1.parse_location.
  destruct (V1.location_of_value raw_value) as [r|].
  - destruct (Hv r eq_refl) as (x & y & a & ->). cbn.
    repeat split; discriminate.
  - destruct (V1.location_of_text raw_text) as [r|].
    + destruct (Ht r eq_refl) as (x & y & a & ->). cbn.
      repeat split; discriminate.
    + cbn. repeat split; reflexivity.
Qed.

Lemma coordinates_come_in_pairs_witness :
  snd (V1.parse_location (Some "[]") (Some "north, south")) = PStr EmptyString.
Proof.
  apply (proj2 (coordinates_come_in_pairs (Some "[]") (Some "north, south"))).
  vm_compute. reflexivity.
Defined.

Lemma get_set_same {V : Type} (k : string) (v : V) (d : list (string * V)) :
  Dict.get k (Dict.set k v d) = Some v.
Proof.
  induction d as [|[k0 v0] d IH]; cbn.
  - rewrite String.eqb_refl. reflexivity.
  - destruct (String.eqb_spec k0 k) as [-> | H0]; cbn.
    + rewrite String.eqb_refl. reflexivity.
    + destruct (String.eqb_spec k0 k); [contradiction | exact IH].
Qed.

Lemma find_append {V : Type} (f : V -> bool) (l m : list V) :
  find f (l ++ m) = match find f l with Some x => Some x | None => find f m end.
Proof.
  induction l as [|a l IH]; cbn; [reflexivity |].
  destruct (f a); [reflexivity | exact IH].
Qed.

(** The entry a comprehension leaves under a key is the last element
    that carries the key. *)
Lemma of_list_last {V : Type} (key : V -> string) (k : string) (l : list V) :
  Dict.get k (Dict.of_list key l)
  = find (fun x => String.eqb (key x) k) (rev l).
Proof.
  unfold Dict.of_list.
  assert (H : forall d,
             Dict.get k (fold_left (fun d x => Dict.set (key x) x d) l d)
             = match find (fun x => String.eqb (key x) k) (rev l) with
               | Some x => Some x
               | None => Dict.get k d
               end).
  { induction l as [|a l IH]; intros d; cbn [fold_left rev find];
      [reflexivity |].
    rewrite IH, find_append.
    destruct (find (fun x => String.eqb (key x) k) (rev l)) as [x|];
      [reflexivity |].
    cbn [find]. destruct (String.eqb_spec (key a) k) as [<- | Hne].
    - apply get_set_same.
    - apply Table.get_set_other. congruence. }
  rewrite H. destruct (find _ (rev l)); reflexivity.
Qed.

(** X4. When several column values of an item carry the same title, the
    first variant reads the last of them: the order value and the
    location of an item are those of the last column value titled so,
    and an item without such a column value has neither. *)
Theorem last_column_of_a_title_wins
    (ov loc : string) (it : item) :
  let last_titled t :=
    find (fun cv => String.eqb (cv_title cv) t) (rev (it_column_values it)) in
  V1.normalize ov loc it
  = (V1.order_value (match last_titled ov with
                     | Some cv => cv_text cv
                     | None => None
                     end),
     V1.parse_location
       (match last_titled loc with Some cv => cv_value cv | None => None end)
       (match last_titled loc with Some cv => cv_text cv | None => None end)).
Proof.
  intros last_titled. unfold V1.normalize, V1.field.
  rewrite !of_list_last. reflexivity.
Qed.

End RowFacts.

(** ** More on the order value *)

Module MoneyFacts.

Import Sample.

Local Open Scope string_scope.

Lemma remove_append (c : ascii) (a b : string) :
  Str.remove c (a ++ b) = Str.remove c a ++ Str.remove c b.
Proof.
  induction a as [|d a IH]; cbn; [reflexivity |].
  destruct (Ascii.eqb d c); cbn; [exact IH | f_equal; exact IH].
Qed.

(** The order value of the first variant in terms of what is left of the
    text. *)
Lemma order_value_rest (t : string) :
  V1.order_value (Some t)
  = if Str.is_empty (Str.strip (Str.remove "," (Str.remove "$" t))) then None
    else Float.of_string (Str.strip (Str.remove "," (Str.remove "$" t))).
Proof. destruct t; reflexivity. Qed.

(** X5. The first variant drops dollar signs and commas wherever they
    stand, without checking their place: a text with one more of either,
    anywhere, has the same order value. *)
Theorem currency_marks_ignored_anywhere (a b : string) :
  V1.order_value (Some (a ++ "$" ++ b)) = V1.order_value (Some (a ++ b)) /\
  V1.order_value (Some (a ++ "," ++ b)) = V1.order_value (Some (a ++ b)).
Proof.
  rewrite !order_value_rest, !remove_append. cbn [Str.remove String.append].
  change (Ascii.eqb "$" "$") with true. change (Ascii.eqb "," ",") with true.
  change (Ascii.eqb "," "$") with false. cbn [Str.remove String.append].
  change (Ascii.eqb "," ",") with true. cbn [String.append].
  split; reflexivity.
Qed.

(** Thousands separators out of place are accepted all the same. *)
Example misplaced_separators :
  V1.order_value (Some "1,2") = Some (dec 12 0) /\
  V1.order_value (Some "5$") = Some (dec 5 0) /\
  V1.order_value (Some ",,$") = None.
Proof. by_evaluation. Qed.

(** What a digit or a point is not. *)
Lemma num_char_facts (c : ascii) :
  V2.is_num_char c = true ->
  Str.is_space c = false /\
  Ascii.eqb c "_" = false /\ Ascii.eqb c "$" = false /\
  Ascii.eqb c "," = false /\ Ascii.eqb c "-" = false /\
  Ascii.eqb c "+" = false /\
  Ascii.eqb (Str.lower c) "i" = false /\ Ascii.eqb (Str.lower c) "n" = false.
Proof.
  destruct c as [[|] [|] [|] [|] [|] [|] [|] [|]]; vm_compute; intros H;
    try discriminate H; repeat split; reflexivity.
Qed.

Lemma strip_no_space (s : string) :
  Str.all_chars (fun c => negb (Str.is_space c)) s = true -> Str.strip s = s.
Proof.
  intros H. unfold Str.strip.
  assert (Hl : Str.lstrip s = s).
  { destruct s as [|c s]; [reflexivity |]. cbn in H |- *.
    apply andb_true_iff in H as [Hc _]. apply negb_true_iff in Hc.
    rewrite Hc. reflexivity. }
  rewrite Hl. clear Hl. induction s as [|c s IH]; [reflexivity |].
  cbn in H. apply andb_true_iff in H as [Hc Hs]. apply negb_true_iff in Hc.
  cbn [Str.rstrip]. rewrite (IH Hs), Hc. destruct s; reflexivity.
Qed.

Lemma all_chars_weaken (p q : ascii -> bool) (s : string) :
  (forall c, p c = true -> q c = true) ->
  Str.all_chars p s = true -> Str.all_chars q s = true.
Proof.
  intros Hpq. induction s as [|c s IH]; cbn; [reflexivity |].
  intros H. apply andb_true_iff in H as [Hc Hs].
  rewrite (Hpq c Hc), (IH Hs). reflexivity.
Qed.

Lemma remove_absent (c : ascii) (s : string) :
  Str.all_chars (fun d => negb (Ascii.eqb d c)) s = true -> Str.remove c s = s.
Proof.
  induction s as [|d s IH]; cbn; [reflexivity |].
  intros H. apply andb_true_iff in H as [Hd Hs]. apply negb_true_iff in Hd.
  rewrite Hd, (IH Hs). reflexivity.
Qed.

Lemma remove_all (c : ascii) (s : string) :
  Str.all_chars (fun d => Ascii.eqb d c) s = true ->
  Str.remove c s = EmptyString.
Proof.
  induction s as [|d s IH]; cbn; [reflexivity |].
  intros H. apply andb_true_iff in H as [Hd Hs]. rewrite Hd. exact (IH Hs).
Qed.

Lemma underscores_ok_none (s : string) (prev : option ascii) :
  prev <> Some "_"%char ->
  Str.all_chars (fun d => negb (Ascii.eqb d "_")) s = true ->
  Float.underscores_ok prev s = true.
Proof.
  revert prev. induction s as [|c s IH]; intros prev Hp H; cbn.
  - destruct prev as [p|]; [| reflexivity].
    destruct (Ascii.eqb_spec p "_"); [subst; contradiction Hp; reflexivity |].
    destruct p as [[|] [|] [|] [|] [|] [|] [|] [|]]; try reflexivity.
    contradiction n; reflexivity.
  - cbn in H. apply andb_true_iff in H as [Hc Hs]. apply negb_true_iff in Hc.
    rewrite Hc. rewrite IH; [| intros E; injection E as ->; discriminate Hc
                             | exact Hs].
    rewrite andb_true_r.
    destruct prev as [p|]; [| reflexivity].
    destruct p as [[|] [|] [|] [|] [|] [|] [|] [|]]; try reflexivity.
    contradiction Hp; reflexivity.
Qed.

(** X6. On an amount written with digits, points and commas after any
    number of dollar signs, the two variants convert the same text to a
    number: the amount without its dollar signs and commas. The first
    converts it with [float], the second with [pandas.to_numeric]; nothing
    is said here of how the two conversions compare. *)
Theorem variants_convert_the_same_text (pre body : string) :
  Str.all_chars (fun c => Ascii.eqb c "$") pre = true ->
  Str.all_chars (fun c => V2.is_num_char c || Ascii.eqb c ",") body = true ->
  Str.remove "," body <> EmptyString ->
  V1.order_value (Some (pre ++ body)) = Float.of_string (Str.remove "," body) /\
  V2.order_value_num (Some (pre ++ body)) = V2.to_numeric (Str.remove "," body).
Proof.
  intros Hpre Hbody Hne.
  assert (Htok : Str.all_chars V2.is_num_char (Str.remove "," body) = true).
  { clear Hne. induction body as [|c body IH]; [reflexivity |].
    cbn in Hbody |- *. apply andb_true_iff in Hbody as [Hc Hb].
    destruct (Ascii.eqb c ",") eqn:E; [exact (IH Hb) |].
    rewrite orb_false_r in Hc. cbn. rewrite Hc. exact (IH Hb). }
  assert (Hnod : Str.remove "$" body = body).
  { apply remove_absent.
    apply (all_chars_weaken
             (fun c => V2.is_num_char c || Ascii.eqb c ",")); [| exact Hbody].
    intros c Hc. apply orb_true_iff in Hc as [Hc | Hc].
    - destruct (num_char_facts c Hc) as (_ & _ & -> & _). reflexivity.
    - apply Ascii.eqb_eq in Hc. subst. reflexivity. }
  split.
  - rewrite order_value_rest, remove_append, (remove_all "$" pre Hpre), Hnod.
    cbn [String.append].
    rewrite strip_no_space
      by (apply (all_chars_weaken V2.is_num_char); [| exact Htok];
          intros c Hc; destruct (num_char_facts c Hc) as (-> & _);
          reflexivity).
    destruct (Str.remove "," body) eqn:E; [contradiction Hne; reflexivity |].
    reflexivity.
  - unfold V2.order_value_num. rewrite remove_append.
    rewrite (remove_absent "," pre)
      by (apply (all_chars_weaken (fun c => Ascii.eqb c "$")); [| exact Hpre];
          intros c Hc; apply Ascii.eqb_eq in Hc; subst; reflexivity).
    replace (Str.remove "," body)
      with (Str.remove "," body ++ EmptyString) at 1
      by (generalize (Str.remove "," body); intros s;
          induction s as [|d s IH]; cbn; [reflexivity | f_equal; exact IH]).
    rewrite (Money.extract_numeric_run pre (Str.remove "," body) EmptyString);
      [reflexivity | | exact Hne | exact Htok | exact I].
    apply (all_chars_weaken (fun c => Ascii.eqb c "$")); [| exact Hpre].
    intros c Hc. apply Ascii.eqb_eq in Hc. subst. reflexivity.
Qed.

Lemma variants_convert_the_same_text_witness :
  V1.order_value (Some "$$1,2,34.50") = Float.of_string "1234.50" /\
  V2.order_value_num (Some "$$1,2,34.50") = V2.to_numeric "1234.50".
Proof.
  apply (variants_convert_the_same_text "$$" "1,2,34.50");
    [vm_compute; reflexivity | vm_compute; reflexivity | discriminate].
Defined.

End MoneyFacts.

(** ** More on the filters of the second variant *)

Module FilterFacts.

Import Sample FloatOrder.

Lemma insert_sorted_perm (s : string) (l : list string) :
  Permutation (V2.insert_sorted s l) (s :: l).
Proof.
  induction l as [|x l IH]; cbn; [apply Permutation_refl |].
  destruct (String.leb s x); [apply Permutation_refl |].
  apply perm_trans with (x :: s :: l);
    [apply perm_skip, IH | apply perm_swap].
Qed.

Lemma insert_sorted_sorted (s : string) (l : list string) :
  Sorted (fun a b => String.leb a b = true) l -> Sorted (fun a b => String.leb a b = true) (V2.insert_sorted s l).
Proof.
  induction l as [|x l IH]; intros Hl; cbn.
  - repeat constructor.
  - destruct (String.leb s x) eqn:E.
    + constructor; [exact Hl | constructor; exact E].
    + inversion Hl as [|? ? Hs Hd]; subst.
      constructor; [exact (IH Hs) |].
      assert (Hxs : String.leb x s = true)
        by (destruct (String.leb_total s x) as [H | H]; [congruence | exact H]).
      destruct l as [|y l]; cbn.
      * constructor. exact Hxs.
      * destruct (String.leb s y); constructor; [exact Hxs |].
        inversion Hd; assumption.
Qed.

(** X7. The options of the status filter are the statuses observed in the
    table, each once, in ascending order. *)
Theorem status_options_sorted_distinct (df : list V2.frow) :
  Sorted (fun a b => String.leb a b = true) (V2.status_options df) /\
  NoDup (V2.status_options df) /\
  (forall s,
      In s (V2.status_options df) <->
      exists r, In r df /\ V2.status (V2.base r) = Some s).
Proof.
  split; [| split].
  - unfold V2.status_options. set (l := nodup string_dec _). clearbody l.
    induction l as [|x l IH]; cbn; [constructor |].
    apply insert_sorted_sorted, IH.
  - unfold V2.status_options.
    pose proof (NoDup_nodup string_dec
                  (flat_map (fun r => match V2.status (V2.base r) with
                                      | Some s => [s]
                                      | None => []
                                      end) df)) as Hnd.
    revert Hnd. set (l := nodup string_dec _). clearbody l.
    intros Hnd. apply (Permutation_NoDup (l := l)); [| exact Hnd].
    clear Hnd. induction l as [|x l IH]; cbn; [apply perm_nil |].
    apply Permutation_sym.
    apply perm_trans with (x :: fold_right V2.insert_sorted [] l);
      [apply insert_sorted_perm | apply perm_skip, Permutation_sym, IH].
  - intros s. apply Filters.status_options_In.
Qed.

(** X8. With every status selected, as the multiselect starts, the status
    stage keeps the rows that have a status and drops the rows that have
    none; it keeps every row only when no row of the table has a
    status. *)
Theorem default_selection_hides_rows_without_status
    (df out : list V2.frow) :
  (forall r, In r out -> In r df) ->
  forall r,
    In r (V2.filter_status df (V2.default_state df) out) <->
    In r out /\
    (V2.status (V2.base r) <> None \/
     forall r', In r' df -> V2.status (V2.base r') = None).
Proof.
  intros Hsub r. unfold V2.filter_status. cbn [V2.default_state V2.status_sel].
  destruct (V2.status_options df) as [|s0 l] eqn:E.
  - split; [| intros [H _]; exact H].
    intros H. split; [exact H | right].
    intros r' Hr'. destruct (V2.status (V2.base r')) as [s|] eqn:Es;
      [| reflexivity].
    assert (Hin : In s (V2.status_options df))
      by (apply Filters.status_options_In; exists r'; auto).
    rewrite E in Hin. contradiction.
  - rewrite filter_In. unfold V2.status_isin.
    cbn [V2.default_state V2.status_sel]. split.
    + intros [Hr Hs]. split; [exact Hr | left].
      destruct (V2.status (V2.base r)); [discriminate | discriminate Hs].
    + intros [Hr Hs]. split; [exact Hr |].
      destruct (V2.status (V2.base r)) as [s|] eqn:Es.
      * apply existsb_exists. exists s. split; [| apply String.eqb_refl].
        apply Filters.status_options_In. exists r. auto.
      * destruct Hs as [Hs | Hs]; [contradiction Hs; reflexivity |].
        assert (Hin : In s0 (V2.status_options df))
          by (rewrite E; left; reflexivity).
        apply Filters.status_options_In in Hin as (r' & Hr' & Hs').
        rewrite (Hs r' Hr') in Hs'. discriminate.
Qed.

Lemma default_selection_hides_rows_without_status_witness :
  In (frow_of "a" (Some "10") (Some "Open"))
     (V2.filter_status with_status (V2.default_state with_status) with_status).
Proof.
  apply (default_selection_hides_rows_without_status with_status with_status).
  - intros r H. exact H.
  - split; [left; reflexivity | left; discriminate].
Defined.

(** The row without a status is gone. *)
Example default_selection_sample :
  V2.filter_status with_status (V2.default_state with_status) with_status
  = [frow_of "a" (Some "10") (Some "Open");
     frow_of "b" (Some "50") (Some "Done")].
Proof. vm_compute. reflexivity. Qed.

End FilterFacts.

(** ** The widgets as they start *)

Module Defaults.

Import Sample FloatOrder.

Lemma order_value_num_sign_clear (text : option string) (v : Float.float) :
  V2.order_value_num text = Some v -> Float.sign_clear v = true.
Proof.
  unfold V2.order_value_num, V2.to_numeric. intros H.
  destruct text as [t|]; [| discriminate].
  destruct (V2.extract_numeric _) as [tok|]; [| discriminate].
  destruct (Float.parse_decimal tok) as [[m e]|]; [| discriminate].
  injection H as <-. apply FloatSign.of_decimal_sign_clear.
Qed.

Lemma sign_clear_not_nan (v : Float.float) :
  Float.sign_clear v = true -> Float.is_nan v = false.
Proof. destruct v as [[|]|[|]| |[|] m e]; cbn; congruence. Qed.

(** The scan for the largest value: what it holds is a number, at least
    what it held before and at least every value scanned. *)
Lemma col_max_from (df : list V2.frow) :
  (forall r v, In r df -> V2.num r = Some v -> Float.is_nan v = false) ->
  forall best,
    (forall b, best = Some b -> Float.is_nan b = false) ->
    let res :=
      fold_left
        (fun best r =>
           match V2.num r, best with
           | Some v, Some b => if Float.ltb b v then Some v else Some b
           | Some v, None => Some v
           | None, _ => best
           end)
        df best in
    (forall m, res = Some m -> Float.is_nan m = false) /\
    (forall b, best = Some b -> exists m, res = Some m /\ Float.leb b m = true) /\
    (forall r v, In r df -> V2.num r = Some v ->
                 exists m, res = Some m /\ Float.leb v m = true) /\
    (res = None -> forall r, In r df -> V2.num r = None).
Proof.
  induction df as [|r df IH]; intros Hnum best Hbest; cbn [fold_left];
    cbv zeta.
  - repeat split.
    + exact Hbest.
    + intros b ->. exists b. split; [reflexivity |].
      apply leb_refl, Hbest. reflexivity.
    + intros r v [].
    + intros _ r [].
  - assert (Hr : forall v, V2.num r = Some v -> Float.is_nan v = false)
      by (intros v; apply Hnum; left; reflexivity).
    pose proof (IH (fun r0 v H => Hnum r0 v (or_intror H))) as IH'.
    cbv zeta in IH'.
    destruct (V2.num r) as [v|] eqn:Ev.
    + pose proof (Hr v eq_refl) as Hv.
      assert (Hsome : forall x, Float.is_nan x = false ->
                forall b0, Some x = Some b0 -> Float.is_nan b0 = false)
        by (intros x Hx b0 Hb0; injection Hb0 as <-; exact Hx).
      destruct best as [b|].
      * pose proof (Hbest b eq_refl) as Hb.
        destruct (Float.ltb b v) eqn:E.
        -- destruct (IH' (Some v) (Hsome v Hv)) as (H1 & H2 & H3 & H4).
           destruct (H2 v eq_refl) as (m & Hm & Hle).
           split; [exact H1 | split; [| split]].
           ++ intros b0 Hb0. injection Hb0 as <-. exists m.
              split; [exact Hm |].
              apply leb_trans with v; [apply ltb_leb, E | exact Hle].
           ++ intros r0 v0 [<- | Hin] Ev0; [| exact (H3 r0 v0 Hin Ev0)].
              rewrite Ev in Ev0. injection Ev0 as <-.
              exists m. split; assumption.
           ++ intros Hres. congruence.
        -- destruct (IH' (Some b) (Hsome b Hb)) as (H1 & H2 & H3 & H4).
           destruct (H2 b eq_refl) as (m & Hm & Hle).
           split; [exact H1 | split; [| split]].
           ++ intros b0 Hb0. injection Hb0 as <-. exists m.
              split; assumption.
           ++ intros r0 v0 [<- | Hin] Ev0; [| exact (H3 r0 v0 Hin Ev0)].
              rewrite Ev in Ev0. injection Ev0 as <-.
              exists m. split; [exact Hm |].
              apply leb_trans with b; [apply leb_total; assumption | exact Hle].
           ++ intros Hres. congruence.
      * destruct (IH' (Some v) (Hsome v Hv)) as (H1 & H2 & H3 & H4).
        destruct (H2 v eq_refl) as (m & Hm & Hle).
        split; [exact H1 | split; [| split]].
        -- intros b0 Hb0. discriminate Hb0.
        -- intros r0 v0 [<- | Hin] Ev0; [| exact (H3 r0 v0 Hin Ev0)].
           rewrite Ev in Ev0. injection Ev0 as <-.
           exists m. split; assumption.
        -- intros Hres. congruence.
    + destruct (IH' best Hbest) as (H1 & H2 & H3 & H4).
      split; [exact H1 | split; [exact H2 | split]].
      * intros r0 v0 [<- | Hin] Ev0; [congruence | exact (H3 r0 v0 Hin Ev0)].
      * intros Hres r0 [<- | Hin]; [exact Ev | exact (H4 Hres r0 Hin)].
Qed.

(** X9. With the value range as the slider starts, the value stage keeps
    every row of a fetched table: the lower bound is zero, no extracted
    value is below zero, and the upper bound is the largest value or
    one. *)
Theorem default_range_keeps_every_row
    (to_date : string -> option Z) (rows : list V2.row) :
  let df := V2.frame_of_rows to_date rows in
  V2.filter_value (V2.default_state df) df = df.
Proof.
  intros df. unfold V2.filter_value. apply PdFacts.filter_all.
  assert (Hclear : forall r v, In r df -> V2.num r = Some v ->
                               Float.sign_clear v = true).
  { intros r v Hr Hv. subst df. unfold V2.frame_of_rows in Hr.
    apply in_map_iff in Hr as (r0 & <- & _). cbn [V2.num] in Hv.
    exact (order_value_num_sign_clear _ _ Hv). }
  destruct (col_max_from df
              (fun r v Hr Hv => sign_clear_not_nan v (Hclear r v Hr Hv))
              None ltac:(discriminate))
    as (H1 & _ & H3 & H4).
  fold (V2.col_max df) in H1, H3, H4.
  intros r Hr. unfold V2.in_value_range.
  cbn [V2.default_state V2.val_range]. unfold V2.default_val_range.
  destruct (V2.col_max df) as [mx|] eqn:Emx.
  - cbn [fst snd].
    pose proof (H1 mx eq_refl) as Hmx.
    assert (Hone : Float.leb Float.zero (Float.of_Z 1) = true)
      by (vm_compute; reflexivity).
    assert (Hhi : Float.leb mx (V2.py_max mx (Float.of_Z 1)) = true /\
                  Float.leb (Float.of_Z 1) (V2.py_max mx (Float.of_Z 1)) = true).
    { unfold V2.py_max. destruct (Float.ltb mx (Float.of_Z 1)) eqn:E.
      - split; [apply ltb_leb, E | vm_compute; reflexivity].
      - split; [apply leb_refl, Hmx |].
        apply leb_total; [exact Hmx | reflexivity | exact E]. }
    destruct Hhi as [Hhi1 Hhi2].
    destruct (V2.num r) as [v|] eqn:Ev; cbn [V2.fillna0].
    + destruct (FloatSign.sign_clear_at_least_zero v (Hclear r v Hr Ev))
        as [Hz _].
      destruct (H3 r v Hr Ev) as (m & Hm & Hle). injection Hm as <-.
      rewrite Hz. cbn [andb]. apply leb_trans with mx; assumption.
    + change (Float.leb Float.zero Float.zero) with true. cbn [andb].
      apply leb_trans with (Float.of_Z 1); assumption.
  - cbn [fst snd]. rewrite (H4 eq_refl r Hr). cbn [V2.fillna0].
    vm_compute. reflexivity.
Qed.




End Defaults.

(** ** What the filters never do *)

Module SubTable.

Import Sample.

Lemma sub_table_refl {A : Type} (l : list A) : sub_table l l.
Proof. induction l; constructor; assumption. Qed.

Lemma sub_table_trans {A : Type} (l m n : list A) :
  sub_table l m -> sub_table m n -> sub_table l n.
Proof.
  intros Hlm Hmn. revert l Hlm.
  induction Hmn as [|x m n Hmn IH|x m n Hmn IH]; intros l Hlm.
  - exact Hlm.
  - inversion Hlm as [|? l' ? Hl|? ? ? Hl]; subst.
    + apply sub_keep, IH, Hl.
    + apply sub_drop, IH, Hl.
  - apply sub_drop, IH, Hlm.
Qed.

Lemma filter_sub_table {A : Type} (f : A -> bool) (l : list A) :
  sub_table (filter f l) l.
Proof.
  induction l as [|x l IH]; cbn; [constructor |].
  destruct (f x); constructor; exact IH.
Qed.

Lemma sub_table_In {A : Type} (l m : list A) (x : A) :
  sub_table l m -> In x l -> In x m.
Proof.
  induction 1 as [|y l m H IH|y l m H IH]; cbn; intuition.
Qed.

Lemma sub_table_length {A : Type} (l m : list A) :
  sub_table l m -> (List.length l <= List.length m)%nat.
Proof. induction 1; cbn; lia. Qed.

Lemma sub_table_NoDup {A : Type} (l m : list A) :
  sub_table l m -> NoDup m -> NoDup l.
Proof.
  induction 1 as [|y l m H IH|y l m H IH]; intros Hm.
  - constructor.
  - inversion Hm as [|? ? Hy Hm']; subst. constructor; [| exact (IH Hm')].
    intros Hin. apply Hy. exact (sub_table_In l m y H Hin).
  - inversion Hm; subst. apply IH. assumption.
Qed.

Lemma apply_filters_sub (str_contains : string -> string -> bool)
    (df : list V2.frow) (st : V2.filter_state) :
  sub_table (V2.apply_filters str_contains df st) df.
Proof.
  unfold V2.apply_filters.
  apply sub_table_trans with (V2.filter_date st
                                (V2.filter_status df st (V2.filter_value st df))).
  { unfold V2.filter_query. destruct (Str.is_empty (V2.q st));
      [apply sub_table_refl | apply filter_sub_table]. }
  apply sub_table_trans with (V2.filter_status df st (V2.filter_value st df)).
  { unfold V2.filter_date. destruct (V2.date_range st) as [[|a [|b [|c l]]]|];
      try apply sub_table_refl.
    destruct (existsb _ _); [apply filter_sub_table | apply sub_table_refl]. }
  apply sub_table_trans with (V2.filter_value st df).
  { unfold V2.filter_status. destruct (V2.status_options df);
      [apply sub_table_refl |].
    destruct (V2.status_sel st); [apply sub_table_refl | apply filter_sub_table]. }
  apply filter_sub_table.
Qed.

(** X11. Filtering only leaves rows out. Whatever the state of the
    widgets, what [apply_filters] returns is the table with some rows left
    out and the others in their order; so are the filtered table of the
    first variant and the rows that get a marker. No row is added,
    repeated or moved. *)
Theorem filters_only_leave_rows_out :
  (forall str_contains df st,
      sub_table (V2.apply_filters str_contains df st) df) /\
  (forall extra py_str vmin vmax q df,
      sub_table (V1.filtered extra py_str vmin vmax q df) df) /\
  (forall fdf, sub_table (V2.plotted fdf) fdf) /\
  (forall (l m : list V2.frow),
      sub_table l m ->
      (List.length l <= List.length m)%nat /\
      (forall r, In r l -> In r m) /\
      (NoDup m -> NoDup l)).
Proof.
  split; [| split; [| split]].
  - intros str_contains df st. apply apply_filters_sub.
  - intros. apply filter_sub_table.
  - intros. apply filter_sub_table.
  - intros l m H. split; [| split].
    + apply sub_table_length, H.
    + intros r. apply sub_table_In, H.
    + apply sub_table_NoDup, H.
Qed.

Lemma filters_only_leave_rows_out_witness :
  (List.length [frow_of "b" (Some "50") None]
   <= List.length values_10_50_200)%nat.
Proof.
  refine (proj1 (proj2 (proj2 (proj2 filters_only_leave_rows_out))
                   [frow_of "b" (Some "50") None] values_10_50_200 _)).
  apply sub_drop, sub_keep, sub_drop, sub_nil.
Defined.

End SubTable.

(** ** Columns that are not there *)

Module Columns.

Import Sample.

Lemma find_none_rev {V : Type} (f : V -> bool) (l : list V) :
  (forall x, In x l -> f x = false) -> find f (rev l) = None.
Proof.
  intros H. destruct (find f (rev l)) as [x|] eqn:E; [| reflexivity].
  apply find_some in E as [Hin Hf]. apply in_rev in Hin.
  rewrite (H x Hin) in Hf. discriminate.
Qed.

(** X12. A location column that no item carries. When the title (first
    variant) or the identifier (second variant) configured for the
    location matches no column value of any item, the first variant builds
    an empty table, and the second keeps one row per item, none of which
    gets a marker whatever the filters are set to. *)
Theorem unknown_location_column :
  (forall ov loc extra items,
      (forall it cv, In it items -> In cv (it_column_values it) ->
                     cv_title cv <> loc) ->
      V1.build_rows ov loc extra items = []) /\
  (forall to_date w items,
      (forall it cv, In it items -> In cv (it_column_values it) ->
                     cv_id cv <> V2.w_location w) ->
      let df := V2.frame_of_rows to_date (map (V2.row_of_item w) items) in
      List.length df = List.length items /\
      forall str_contains st,
        V2.plotted (V2.apply_filters str_contains df st) = []).
Proof.
  split.
  - intros ov loc extra items Hloc.
    unfold V1.build_rows. rewrite Table.build_rows_from. cbn [app].
    induction items as [|it items IH]; [reflexivity |]. cbn [flat_map].
    rewrite IH by (intros it' cv Hit; apply Hloc; right; exact Hit).
    assert (Hrow : V1.row_of_item ov loc extra it = None).
    { unfold V1.row_of_item, V1.normalize, V1.field.
      rewrite !RowFacts.of_list_last.
      rewrite (find_none_rev (fun x => String.eqb (cv_title x) loc))
        by (intros cv Hcv; apply String.eqb_neq;
            apply (Hloc it cv (or_introl eq_refl) Hcv)).
      reflexivity. }
    rewrite Hrow. reflexivity.
  - intros to_date w items Hloc df. subst df. split.
    + unfold V2.frame_of_rows. rewrite !length_map. reflexivity.
    + intros str_contains st.
      assert (Hlat : forall r, In r (V2.frame_of_rows to_date
                                       (map (V2.row_of_item w) items)) ->
                               V2.lat (V2.base r) = PNone).
      { intros r Hr. unfold V2.frame_of_rows in Hr.
        apply in_map_iff in Hr as (r0 & <- & Hr0).
        apply in_map_iff in Hr0 as (it & <- & Hit).
        cbn [V2.base]. unfold V2.row_of_item.
        rewrite RowFacts.of_list_last.
        rewrite (find_none_rev (fun x => String.eqb (V2.d_id x) (V2.w_location w))).
        - reflexivity.
        - intros d Hd. apply in_map_iff in Hd as (cv & <- & Hcv).
          apply String.eqb_neq. cbn [V2._cv_to_dict V2.d_id].
          apply (Hloc it cv Hit Hcv). }
      unfold V2.plotted.
      destruct (filter _ _) as [|r l] eqn:E; [reflexivity |].
      assert (Hr : In r (r :: l)) by (left; reflexivity).
      rewrite <- E in Hr. apply filter_In in Hr as [Hin Hf].
      apply (SubTable.sub_table_In _ _ _
               (SubTable.apply_filters_sub str_contains _ st)) in Hin.
      rewrite (Hlat r Hin) in Hf. discriminate Hf.
Qed.

Lemma unknown_location_column_witness :
  V1.build_rows ORDER_VALUE_COLUMN_TITLE "Site" EXTRA_DETAIL_COLUMNS
    [item_ok; item_no_value] = [] /\
  V2.plotted
    (V2.apply_filters (fun _ _ => true)
       (V2.frame_of_rows (fun _ => None)
          (map (V2.row_of_item
                  (V2.make_wanted "site" "order_value" "status" EmptyString
                     EmptyString EmptyString EmptyString EmptyString
                     EmptyString))
               [item_ok; item_no_value]))
       (range_only 0 2000 [])) = [].
Proof.
  split.
  - apply (proj1 unknown_location_column).
    intros it c [<-|[<-|[]]] Hc; cbn in Hc;
      repeat (destruct Hc as [<-|Hc]; [cbn; discriminate |]);
      destruct Hc.
  - apply (proj2 unknown_location_column (fun _ => None)).
    intros it c [<-|[<-|[]]] Hc; cbn in Hc;
      repeat (destruct Hc as [<-|Hc]; [vm_compute; discriminate |]);
      destruct Hc.
Defined.

End Columns.

(** ** Optional columns left blank *)

Module BlankColumns.

Import Sample.

Lemma get_optional_none (cv_map : list (string * V2.cv_dict)) :
  V2.get_optional cv_map None = None.
Proof. reflexivity. Qed.

Lemma strip_or_none_blank (text : string) :
  Str.strip text = EmptyString -> V2.strip_or_none text = None.
Proof. intros H. unfold V2.strip_or_none. rewrite H. reflexivity. Qed.

Lemma no_status_no_options (df : list V2.frow) :
  (forall r, In r df -> V2.status (V2.base r) = None) ->
  V2.status_options df = [].
Proof.
  intros H. unfold V2.status_options.
  assert (E : flat_map (fun r => match V2.status (V2.base r) with
                                 | Some s => [s]
                                 | None => []
                                 end) df = []).
  { induction df as [|r df IH]; [reflexivity |]. cbn [flat_map].
    rewrite (H r (or_introl eq_refl)), IH; [reflexivity |].
    intros r' Hr'. apply H. right. exact Hr'. }
  rewrite E. reflexivity.
Qed.

Lemma no_date_existsb (out : list V2.frow) :
  (forall r, In r out -> V2.date_parsed r = None) ->
  existsb (fun r => negb (is_none (V2.date_parsed r))) out = false.
Proof.
  intros H. induction out as [|r out IH]; [reflexivity |]. cbn [existsb].
  rewrite (H r (or_introl eq_refl)), IH; [reflexivity |].
  intros r' Hr'. apply H. right. exact Hr'.
Qed.

Lemma no_date_no_bounds (df : list V2.frow) :
  (forall r, In r df -> V2.date_parsed r = None) ->
  V2.date_bounds df = None.
Proof.
  unfold V2.date_bounds. intros H.
  assert (G : forall acc,
             fold_left
               (fun acc r =>
                  match V2.date_parsed r, acc with
                  | Some d, Some (lo, hi) => Some (Z.min lo d, Z.max hi d)
                  | Some d, None => Some (d, d)
                  | None, _ => acc
                  end) df acc = acc).
  { induction df as [|r df IH]; intros acc; cbn [fold_left]; [reflexivity |].
    rewrite (H r (or_introl eq_refl)). apply IH.
    intros r' Hr'. apply H. right. exact Hr'. }
  apply G.
Qed.

(** X13. Optional columns left blank. When the sidebar's status column is
    blank (only white space), no row carries a status, the status widget
    has no option, and the status filter keeps every row whatever is
    selected. When the date column is blank, no row carries a parsed date,
    the date widget is not offered, and the date filter keeps every row
    of the frame whatever range it is given. *)
Theorem blank_columns_switch_filters_off
    (to_date : string -> option Z)
    (location_col value_col status_col date_col customer_col
       city_col state_col country_col extra_cols_str : string)
    (items : list item) :
  let w := V2.make_wanted location_col value_col status_col date_col
             customer_col city_col state_col country_col extra_cols_str in
  let df := V2.frame_of_rows to_date (map (V2.row_of_item w) items) in
  (Str.strip status_col = EmptyString ->
   (forall r, In r df -> V2.status (V2.base r) = None) /\
   V2.status_options df = [] /\
   forall st out, V2.filter_status df st out = out) /\
  (Str.strip date_col = EmptyString ->
   (forall r, In r df -> V2.date_parsed r = None) /\
   V2.default_date_range df = None /\
   forall st out, (forall r, In r out -> In r df) ->
                  V2.filter_date st out = out).
Proof.
  intros w df. split.
  - intros Hblank.
    assert (Hnone : forall r, In r df -> V2.status (V2.base r) = None).
    { intros r Hr. subst df. unfold V2.frame_of_rows in Hr.
      apply in_map_iff in Hr as (r0 & <- & Hr0).
      apply in_map_iff in Hr0 as (it & <- & _).
      cbn [V2.base]. unfold V2.row_of_item.
      destruct (V2.parse_location _ _) as [[la ln] addr].
      cbn [V2.status]. subst w. cbn [V2.make_wanted V2.w_status].
      rewrite (strip_or_none_blank _ Hblank). reflexivity. }
    split; [exact Hnone |].
    pose proof (no_status_no_options df Hnone) as Hopt.
    split; [exact Hopt |].
    intros st out. unfold V2.filter_status. rewrite Hopt. reflexivity.
  - intros Hblank.
    assert (Hnone : forall r, In r df -> V2.date_parsed r = None).
    { intros r Hr. subst df. unfold V2.frame_of_rows in Hr.
      apply in_map_iff in Hr as (r0 & <- & Hr0).
      apply in_map_iff in Hr0 as (it & <- & _).
      cbn [V2.date_parsed].
      assert (Hd : V2.date (V2.row_of_item w it) = None).
      { unfold V2.row_of_item.
        destruct (V2.parse_location _ _) as [[la ln] addr].
        cbn [V2.date]. subst w. cbn [V2.make_wanted V2.w_date].
        rewrite (strip_or_none_blank _ Hblank). reflexivity. }
      rewrite Hd. destruct (existsb _ _); reflexivity. }
    split; [exact Hnone |]. split.
    + unfold V2.default_date_range.
      rewrite (no_date_no_bounds df Hnone). reflexivity.
    + intros st out Hsub. unfold V2.filter_date.
      destruct (V2.date_range st) as [[|a [|b [|c l]]]|]; try reflexivity.
      rewrite no_date_existsb; [reflexivity |].
      intros r Hr. apply Hnone, Hsub, Hr.
Qed.

Lemma blank_columns_switch_filters_off_witness :
  let df :=
    V2.frame_of_rows (fun _ => Some 19700)
      (map (V2.row_of_item
              (V2.make_wanted "location" "order_value" "  " EmptyString
                 "customer" EmptyString EmptyString EmptyString EmptyString))
           [item_ok; item_no_value]) in
  V2.status_options df = [] /\ V2.default_date_range df = None.
Proof.
  intros df.
  pose proof (blank_columns_switch_filters_off (fun _ => Some 19700)
                "location" "order_value" "  " EmptyString
                "customer" EmptyString EmptyString EmptyString EmptyString
                [item_ok; item_no_value]) as [Hs Hd].
  split.
  - apply Hs. reflexivity.
  - apply Hd. reflexivity.
Defined.

End BlankColumns.

(** ** The search box of the first variant *)

Module SearchFacts.

Import Sample.

Lemma append_assoc (a b c : string) :
  ((a ++ b) ++ c)%string = (a ++ (b ++ c))%string.
Proof. induction a as [|x a IH]; cbn; [reflexivity | rewrite IH; reflexivity]. Qed.

Lemma prefix_spec (p s : string) :
  String.prefix p s = true <-> exists b, s = (p ++ b)%string.
Proof.
  revert s. induction p as [|c p IH]; intros s.
  - split; [intros _; exists s; reflexivity | intros _; destruct s; reflexivity].
  - destruct s as [|d s]; cbn.
    + split; [discriminate | intros [b Hb]; discriminate Hb].
    + destruct (Ascii.ascii_dec c d) as [<-|Hcd].
      * rewrite IH. split; intros [b Hb]; exists b.
        -- rewrite Hb. reflexivity.
        -- injection Hb as Hb. exact Hb.
      * split; [discriminate |]. intros [b Hb]. injection Hb as Hd _.
        congruence.
Qed.

Lemma infix_spec (p s : string) :
  V1.infix p s = true <-> exists a b, s = (a ++ p ++ b)%string.
Proof.
  induction s as [|d s IH].
  - cbn [V1.infix]. rewrite orb_false_r, prefix_spec. split.
    + intros [b Hb]. exists EmptyString, b. exact Hb.
    + intros (a & b & H). destruct a as [|x a]; [| discriminate H].
      exists b. exact H.
  - cbn [V1.infix]. rewrite orb_true_iff, prefix_spec, IH. split.
    + intros [[b Hb] | (a & b & H)].
      * exists EmptyString, b. exact Hb.
      * exists (String d a), b. cbn. rewrite H. reflexivity.
    + intros (a & b & H). destruct a as [|x a].
      * left. exists b. exact H.
      * right. injection H as _ H. exists a, b. exact H.
Qed.

Lemma infix_trans (a b s : string) :
  V1.infix a b = true -> V1.infix b s = true -> V1.infix a s = true.
Proof.
  rewrite !infix_spec. intros (x & y & ->) (u & v & ->).
  exists (u ++ x)%string, (y ++ v)%string.
  rewrite !append_assoc. reflexivity.
Qed.

Lemma is_empty_lowercase (s : string) :
  Str.is_empty (Str.lowercase s) = Str.is_empty s.
Proof. destruct s; reflexivity. Qed.

Lemma infix_empty (p : string) :
  V1.infix p EmptyString = true -> p = EmptyString.
Proof. destruct p; [reflexivity | discriminate]. Qed.

Lemma filter_weaker {A : Type} (f g : A -> bool) (l : list A) :
  (forall x, In x l -> f x = true -> g x = true) ->
  sub_table (filter f l) (filter g l).
Proof.
  induction l as [|x l IH]; intros H; cbn; [constructor |].
  assert (IH' : sub_table (filter f l) (filter g l)).
  { apply IH. intros y Hy. apply H. right. exact Hy. }
  destruct (f x) eqn:Ef.
  - rewrite (H x (or_introl eq_refl) Ef). constructor. exact IH'.
  - destruct (g x); [apply sub_drop |]; exact IH'.
Qed.

(** X14. Narrowing the search of the first variant. If the search text
    [q], letter case aside, occurs inside the search text [q'], every row
    shown for [q'] is shown for [q], in the same order: typing more into
    the search box never brings a row back. Two search texts that differ
    only in letter case show the same rows. *)
Theorem longer_search_never_adds_rows
    (extra : list string) (py_str : pyobj -> string)
    (vmin vmax : Z) (df : list V1.row) (q q' : string) :
  (V1.infix (Str.lowercase q) (Str.lowercase q') = true ->
   sub_table (V1.filtered extra py_str vmin vmax q' df)
             (V1.filtered extra py_str vmin vmax q df)) /\
  (Str.lowercase q = Str.lowercase q' ->
   V1.filtered extra py_str vmin vmax q' df
   = V1.filtered extra py_str vmin vmax q df).
Proof.
  split.
  - intros Hin. unfold V1.filtered. apply filter_weaker.
    intros r _ Hr. apply andb_true_iff in Hr as [Hv Hq].
    rewrite Hv. cbn [andb].
    destruct (Str.is_empty q) eqn:Eq; [reflexivity |].
    destruct (Str.is_empty q') eqn:Eq'.
    { destruct q'; [| discriminate Eq']. cbn in Hin.
      apply infix_empty in Hin. destruct q; discriminate. }
    unfold V1.matches_query in Hq |- *.
    apply orb_true_iff in Hq as [Hn | He]; apply orb_true_iff.
    + left. exact (infix_trans _ _ _ Hin Hn).
    + right. apply existsb_exists in He as (t & Ht & Hm).
      apply existsb_exists. exists t. split; [exact Ht |].
      exact (infix_trans _ _ _ Hin Hm).
  - intros Heq. unfold V1.filtered.
    rewrite <- (is_empty_lowercase q), <- (is_empty_lowercase q'), Heq.
    reflexivity.
Qed.

Lemma longer_search_never_adds_rows_witness :
  sub_table
    (V1.filtered EXTRA_DETAIL_COLUMNS
       (fun v => match v with PStr t => t | _ => "None" end)
       0 2000 "ACME" [row_ok])
    (V1.filtered EXTRA_DETAIL_COLUMNS
       (fun v => match v with PStr t => t | _ => "None" end)
       0 2000 "Ac" [row_ok]).
Proof.
  apply (proj1 (longer_search_never_adds_rows EXTRA_DETAIL_COLUMNS
                  (fun v => match v with PStr t => t | _ => "None" end)
                  0 2000 [row_ok] "Ac" "ACME")).
  reflexivity.
Defined.

End SearchFacts.

(** ** The row a click selects *)

Module SelectionFacts.

Import Sample.

Lemma first_min_In {A : Type} (key : A -> Float.float) (l : list A) (b : A) :
  In (Pd.first_min key b l) (b :: l).
Proof.
  revert b. induction l as [|r l IH]; intros b; cbn [Pd.first_min].
  - left. reflexivity.
  - destruct (Float.ltb (key r) (key b)).
    + right. apply IH.
    + destruct (IH b) as [H | H]; [left; exact H | right; right; exact H].
Qed.

Lemma nsmallest1_In {A : Type} (key : A -> Float.float) (l : list A) (r : A) :
  Pd.nsmallest1 key l = Some r -> In r l.
Proof.
  unfold Pd.nsmallest1.
  destruct (filter _ l) as [|b t] eqn:E.
  - destruct l as [|x l]; [discriminate |]. cbn. intros H.
    injection H as <-. left. reflexivity.
  - intros H. injection H as <-.
    assert (Hsub : forall x, In x (b :: t) -> In x l).
    { intros x Hx. rewrite <- E in Hx. apply filter_In in Hx as [Hx _].
      exact Hx. }
    apply Hsub, first_min_In.
Qed.

Lemma nsmallest1_none {A : Type} (key : A -> Float.float) (l : list A) :
  Pd.nsmallest1 key l = None <-> l = [].
Proof.
  unfold Pd.nsmallest1. split.
  - destruct (filter _ l); [| discriminate].
    destruct l; [reflexivity | discriminate].
  - intros ->. reflexivity.
Qed.

(** X15. What a click selects. The lookup of the clicked marker fails
    only on an empty table (the [IndexError] of [[0]]); on any other table
    it returns a row of that table, also when coordinates or distances are
    not numbers. *)
Theorem click_selects_a_shown_row
    (clat clng : Float.float) (filtered : list V1.row) :
  (V1.select_nearest clat clng filtered = None <-> filtered = []) /\
  (forall r, V1.select_nearest clat clng filtered = Some r -> In r filtered).
Proof.
  unfold V1.select_nearest. split.
  - apply nsmallest1_none.
  - intros r. apply nsmallest1_In.
Qed.

Lemma click_selects_a_shown_row_witness :
  In (row_at "first" (dec 50 0) (dec 4012345 (-5)) (dec (-73) 0)) markers.
Proof.
  apply (proj2 (click_selects_a_shown_row
                  (dec 40123451 (-6)) (dec (-73) 0) markers)).
  vm_compute. reflexivity.
Defined.

End SelectionFacts.

(** ** Lists written with commas in the settings *)

Module ConfigLists.

Import Sample.

Lemma contains_append (c : ascii) (a b : string) :
  Str.contains c (a ++ b) = Str.contains c a || Str.contains c b.
Proof.
  induction a as [|d a IH]; cbn; [reflexivity |].
  rewrite IH, orb_assoc. reflexivity.
Qed.

Lemma split_no_sep (c : ascii) (s p : string) :
  In p (Str.split c s) -> Str.contains c p = false.
Proof.
  revert p. induction s as [|d s IH]; intros p; cbn [Str.split].
  - intros [<-|[]]. reflexivity.
  - destruct (Ascii.eqb d c) eqn:E.
    + intros [<-|H]; [reflexivity | apply IH, H].
    + destruct (Str.split c s) as [|p0 ps].
      * intros [<-|[]]. cbn. rewrite E. reflexivity.
      * intros [<-|H].
        -- cbn. rewrite E. apply IH. left. reflexivity.
        -- apply IH. right. exact H.
Qed.

Lemma lstrip_no_sep (c : ascii) (s : string) :
  Str.contains c s = false -> Str.contains c (Str.lstrip s) = false.
Proof.
  induction s as [|d s IH]; cbn [Str.lstrip]; [reflexivity |].
  intros H. destruct (Str.is_space d); [| exact H].
  cbn in H. apply orb_false_iff in H as [_ H]. apply IH, H.
Qed.

Lemma rstrip_no_sep (c : ascii) (s : string) :
  Str.contains c s = false -> Str.contains c (Str.rstrip s) = false.
Proof.
  induction s as [|d s IH]; cbn [Str.rstrip]; [reflexivity |].
  intros H. cbn in H. apply orb_false_iff in H as [Hd H].
  specialize (IH H). destruct (Str.rstrip s) as [|e r'].
  - destruct (Str.is_space d); [reflexivity |]. cbn. rewrite Hd. reflexivity.
  - change (Str.contains c (String d (String e r')))
      with (Ascii.eqb d c || Str.contains c (String e r')).
    rewrite Hd. exact IH.
Qed.

Lemma rstrip_cons (d : ascii) (s : string) :
  Str.rstrip (String d s)
  = match Str.rstrip s with
    | EmptyString =>
        if Str.is_space d then EmptyString else String d EmptyString
    | r' => String d r'
    end.
Proof. reflexivity. Qed.

Lemma rstrip_idem (s : string) : Str.rstrip (Str.rstrip s) = Str.rstrip s.
Proof.
  induction s as [|d s IH]; [reflexivity |]. rewrite rstrip_cons.
  destruct (Str.rstrip s) as [|e r'] eqn:E.
  - destruct (Str.is_space d) eqn:Ed; [reflexivity |].
    rewrite rstrip_cons. cbn [Str.rstrip]. rewrite Ed. reflexivity.
  - rewrite rstrip_cons, IH. reflexivity.
Qed.

Lemma lstrip_head (s : string) :
  Str.lstrip s = EmptyString \/
  exists d r, Str.lstrip s = String d r /\ Str.is_space d = false.
Proof.
  induction s as [|d s IH]; [left; reflexivity |]. cbn [Str.lstrip].
  destruct (Str.is_space d) eqn:Ed; [exact IH |].
  right. exists d, s. split; [reflexivity | exact Ed].
Qed.

Lemma strip_idem (s : string) : Str.strip (Str.strip s) = Str.strip s.
Proof.
  unfold Str.strip.
  assert (Hl : Str.lstrip (Str.rstrip (Str.lstrip s))
               = Str.rstrip (Str.lstrip s)).
  { destruct (lstrip_head s) as [-> | (d & r & -> & Hd)]; [reflexivity |].
    rewrite rstrip_cons, Hd.
    destruct (Str.rstrip r); cbn [Str.lstrip]; rewrite Hd; reflexivity. }
  rewrite Hl. apply rstrip_idem.
Qed.

Lemma clean_parts_In (s p : string) :
  In p (Str.clean_parts s) ->
  p <> EmptyString /\ Str.contains "," p = false /\ Str.strip p = p.
Proof.
  unfold Str.clean_parts. intros H.
  apply filter_In in H as [H Hne]. apply in_map_iff in H as (x & <- & Hx).
  split; [| split].
  - intros E. rewrite E in Hne. discriminate Hne.
  - unfold Str.strip. apply rstrip_no_sep, lstrip_no_sep.
    exact (split_no_sep _ _ _ Hx).
  - apply strip_idem.
Qed.

Lemma split_join (c : ascii) (parts : list string) :
  parts <> [] ->
  (forall p, In p parts -> Str.contains c p = false) ->
  Str.split c (Str.join c parts) = parts.
Proof.
  induction parts as [|p parts IH]; intros Hne H; [congruence |].
  destruct parts as [|p' parts].
  - cbn [Str.join]. apply StrFacts.split_none, H. left. reflexivity.
  - change (Str.join c (p :: p' :: parts))
      with (p ++ String c (Str.join c (p' :: parts)))%string.
    rewrite StrFacts.split_first by (apply H; left; reflexivity).
    rewrite IH; [reflexivity | discriminate |].
    intros x Hx. apply H. right. exact Hx.
Qed.

(** X16. Lists in the settings. The titles of [DETAIL_TITLES] and the
    extra column ids of the sidebar are read as the comma-separated parts
    of the text, trimmed, without the empty ones: every part read is
    non-empty, holds no comma and has no white space at either end.
    Conversely, a list of such parts written with commas between them is
    read back as it is. An empty text gives no part, so the sidebar's test
    for an empty text changes nothing. *)
Theorem settings_list_round_trip :
  (forall s p, In p (V1.detail_titles s) ->
               p <> EmptyString /\ Str.contains "," p = false /\
               Str.strip p = p) /\
  (forall parts,
      (forall p, In p parts ->
                 p <> EmptyString /\ Str.contains "," p = false /\
                 Str.strip p = p) ->
      V1.detail_titles (Str.join "," parts) = parts) /\
  (forall a b c d e f g h extra_cols_str,
      V2.w_extras (V2.make_wanted a b c d e f g h extra_cols_str)
      = V1.detail_titles extra_cols_str).
Proof.
  split; [| split].
  - intros s p. apply clean_parts_In.
  - intros parts H. unfold V1.detail_titles, Str.clean_parts.
    destruct parts as [|p0 parts0]; [reflexivity |].
    rewrite split_join; [| discriminate | intros p Hp; apply (H p Hp)].
    set (parts := p0 :: parts0) in *. clearbody parts.
    induction parts as [|p parts IH]; [reflexivity |].
    cbn [map filter].
    destruct (H p (or_introl eq_refl)) as (Hne & _ & Hs).
    rewrite Hs. destruct p as [|x p]; [congruence |]. cbn [Str.is_empty negb].
    f_equal. apply IH. intros y Hy. apply H. right. exact Hy.
  - intros. cbn [V2.make_wanted V2.w_extras]. unfold V1.detail_titles.
    destruct extra_cols_str; reflexivity.
Qed.

Lemma settings_list_round_trip_witness :
  V1.detail_titles (Str.join "," EXTRA_DETAIL_COLUMNS) = EXTRA_DETAIL_COLUMNS.
Proof.
  apply (proj1 (proj2 settings_list_round_trip)).
  unfold EXTRA_DETAIL_COLUMNS.
  intros p [<-|[<-|[<-|[]]]]; (split; [discriminate | by_evaluation]).
Defined.

End ConfigLists.
